(** * Audio classifier tutorial: dataset accessor, network, evaluation and
      learning-rate schedule

    A shallow embedding of the code cells of
    [doc/OldFiles/audio_classifier_tutorial.ipynb]: the class
    [UrbanSoundDataset] (constructor, [__getitem__], [__len__]), the
    function [test], the [StepLR] schedule driven by the epoch loop, and the
    layer stack of [Net.forward].

    Python values are modelled as follows.
    - A Python [int] is a [Z]; a list is a [list]; list indexing follows
      Python (negative indices count from the end, out of range raises
      [IndexError]).
    - A raised exception is the [Raise] case of [result]; methods of an
      object run in the state-and-exception monad [Py], whose state is the
      object, so that attribute writes (or their absence) are visible.
    - A one-column tensor of shape [n x 1] is the list of its [n] entries;
      [permute(1, 0)] of such a tensor has the same entries in the same
      order, so the returned [1 x 32000] tensor is a list as well.
    - [pandas], [torchaudio] and the file system are collaborators: their
      functions are the fields of the class [Externals].
    - A Python [float] that the loop or the evaluation computes (a learning
      rate, a percentage) is an exact rational.
    - The entries of the tensors that go through the network are numbers
      of any arithmetic that has the operations of the layers; the
      notebook's arithmetic is IEEE 754 binary32. *)

From Stdlib Require Import String DecimalString Bool List ZArith QArith Lia ZifyNat.
From Stdlib Require Import Qpower Permutation Reals SpecFloat.
From ExtLib Require Import Structures.Monad.
Import ListNotations.
Import MonadNotation.
Local Open Scope monad_scope.
Local Open Scope Z_scope.

Ltac Zify.zify_post_hook ::= Z.to_euclidean_division_equations.

(** ** Exceptions and the two monads *)

Inductive exn : Type :=
| IndexError
| TypeError
| RuntimeError
| ValueError
| OSError
| ZeroDivisionError.

Inductive result (A : Type) : Type :=
| Ok (a : A)
| Raise (e : exn).

Arguments Ok {A} a.
Arguments Raise {A} e.

#[global] Instance Monad_result : Monad result :=
  {| ret := fun _ a => Ok a;
     bind := fun _ _ c k => match c with Ok a => k a | Raise e => Raise e end |}.

(** A method body: it reads and may write the object [S], and may raise.
    The object survives an exception, as in Python. *)
Definition Py (S A : Type) : Type := S -> result A * S.

#[global] Instance Monad_Py (S : Type) : Monad (Py S) :=
  {| ret := fun _ a s => (Ok a, s);
     bind := fun _ _ c k s =>
               match c s with
               | (Ok a, s') => k a s'
               | (Raise e, s') => (Raise e, s')
               end |}.

(** [self.f] *)
Definition getattr {S A : Type} (f : S -> A) : Py S A :=
  fun s => (Ok (f s), s).

(** [self.f = v], where [upd] replaces the attribute [f]. *)
Definition setattr {S A : Type} (upd : A -> S -> S) (v : A) : Py S unit :=
  fun s => (Ok tt, upd v s).

(** A computation that does not touch the object. *)
Definition pure {S A : Type} (r : result A) : Py S A :=
  fun s => (r, s).

(** ** Python lists *)

(** [l[i]] *)
Definition py_getitem {A : Type} (l : list A) (i : Z) : result A :=
  let n := Z.of_nat (length l) in
  let j := if i <? 0 then n + i else i in
  if (0 <=? j) && (j <? n) then
    match nth_error l (Z.to_nat j) with
    | Some a => Ok a
    | None => Raise IndexError
    end
  else Raise IndexError.

(** [row[j]] for a natural [j], as a result. *)
Definition nth_error_result {A : Type} (l : list A) (j : nat) : result A :=
  match nth_error l j with
  | Some a => Ok a
  | None => Raise IndexError
  end.

(** [range(lo, hi)] *)
Definition range (lo hi : Z) : list Z :=
  map (fun k => lo + Z.of_nat k) (seq 0 (Z.to_nat (hi - lo))).

(** [for x in xs: body] *)
Fixpoint for_each {m : Type -> Type} {Mm : Monad m} {A : Type}
    (xs : list A) (body : A -> m unit) : m unit :=
  match xs with
  | [] => ret tt
  | x :: xs' => body x ;; for_each xs' body
  end.

(** ** The metadata table *)

(** A value read from the table: an integer or a text.  The accessor reads
    the file name, the fold and the class label only; the other columns of
    a table, whatever they hold, are carried as they are. *)
Inductive cell : Type :=
| CInt (z : Z)
| CStr (s : string).

(** What [pd.read_csv] returns: the rows, each the list of its columns. *)
Definition DataFrame : Type := list (list cell).

(** [csvData.iloc[i, j]] *)
Definition iloc (csvData : DataFrame) (i j : Z) : result cell :=
  row <- py_getitem csvData i ;;
  py_getitem row j.

(** [c in folderList], for a list of integers: membership by [==]. *)
Definition cell_in (c : cell) (folderList : list Z) : bool :=
  match c with
  | CInt z => existsb (Z.eqb z) folderList
  | CStr _ => false
  end.

Definition str_of_Z (z : Z) : string := NilZero.string_of_int (Z.to_int z).

(** [str(c)] *)
Definition str (c : cell) : string :=
  match c with
  | CInt z => str_of_Z z
  | CStr s => s
  end.

(** [s + c] for a [str] [s]: only a [str] can be appended. *)
Definition str_add (s : string) (c : cell) : result string :=
  match c with
  | CStr t => Ok (s ++ t)%string
  | CInt _ => Raise TypeError
  end.

(** ** Collaborators *)

Class Externals : Type :=
  { (** an audio amplitude, and the amplitude [0.] *)
    sample : Type;
    zero : sample;
    (** a decoded recording, all channels *)
    tensor : Type;
    (** [pd.read_csv(csv_path)] *)
    pd_read_csv : string -> result DataFrame;
    (** [torchaudio.load(path, out = None, normalization = True)]: the
        recording and its sampling frequency *)
    torchaudio_load : string -> result (tensor * Z);
    (** [torchaudio.transforms.DownmixMono()]: the recording reduced to one
        channel, a tensor of shape [n x 1] *)
    DownmixMono : tensor -> list sample }.

(** ** Tensor operations on one-column tensors *)

Section Tensor.
Context {ext : Externals}.

(** [torch.zeros([n, 1])] *)
Definition zeros (n : nat) : list sample := repeat zero n.

(** [t.numel()] *)
Definition numel (t : list sample) : nat := length t.

(** [dst[:k] = src].  The target has [min k (len dst)] rows; the source must
    have as many, or one row that is broadcast. *)
Definition setitem_prefix (dst : list sample) (k : nat) (src : list sample)
  : result (list sample) :=
  let n := Nat.min k (length dst) in
  if (length src =? n)%nat then Ok (src ++ skipn n dst)
  else if (length src =? 1)%nat then Ok (repeat (hd zero src) n ++ skipn n dst)
  else Raise RuntimeError.

(** [dst[:] = src] *)
Definition setitem_all (dst src : list sample) : result (list sample) :=
  setitem_prefix dst (length dst) src.

(** The rows [skip], [skip + k], [skip + 2k], ... of [t], where [k = S k']. *)
Fixpoint every_kth (k' skip : nat) (t : list sample) : list sample :=
  match t with
  | [] => []
  | x :: t' =>
      match skip with
      | O => x :: every_kth k' k' t'
      | S skip' => every_kth k' skip' t'
      end
  end.

(** [t[::k]], for [k >= 1] *)
Definition slice_step (k : nat) (t : list sample) : list sample :=
  every_kth (Nat.pred k) 0 t.

End Tensor.

(** The two tensor sizes of [__getitem__]. *)
Definition n160000 : nat := Z.to_nat 160000.
Definition n32000 : nat := Z.to_nat 32000.

(** ** The dataset accessor *)

Section Dataset.
Context {ext : Externals}.

Record UrbanSoundDataset : Type :=
  { file_names : list cell;
    labels : list cell;
    folders : list cell;
    file_path : string;
    mixer : tensor -> list sample;
    folderList : list Z }.

Definition set_file_names (v : list cell) (s : UrbanSoundDataset)
  : UrbanSoundDataset :=
  {| file_names := v; labels := labels s; folders := folders s;
     file_path := file_path s; mixer := mixer s; folderList := folderList s |}.

Definition set_labels (v : list cell) (s : UrbanSoundDataset)
  : UrbanSoundDataset :=
  {| file_names := file_names s; labels := v; folders := folders s;
     file_path := file_path s; mixer := mixer s; folderList := folderList s |}.

Definition set_folders (v : list cell) (s : UrbanSoundDataset)
  : UrbanSoundDataset :=
  {| file_names := file_names s; labels := labels s; folders := v;
     file_path := file_path s; mixer := mixer s; folderList := folderList s |}.

Definition set_file_path (v : string) (s : UrbanSoundDataset)
  : UrbanSoundDataset :=
  {| file_names := file_names s; labels := labels s; folders := folders s;
     file_path := v; mixer := mixer s; folderList := folderList s |}.

Definition set_mixer (v : tensor -> list sample) (s : UrbanSoundDataset)
  : UrbanSoundDataset :=
  {| file_names := file_names s; labels := labels s; folders := folders s;
     file_path := file_path s; mixer := v; folderList := folderList s |}.

Definition set_folderList (v : list Z) (s : UrbanSoundDataset)
  : UrbanSoundDataset :=
  {| file_names := file_names s; labels := labels s; folders := folders s;
     file_path := file_path s; mixer := mixer s; folderList := v |}.

(** [self.f.append(x)] *)
Definition append (f : UrbanSoundDataset -> list cell)
    (upd : list cell -> UrbanSoundDataset -> UrbanSoundDataset) (x : cell)
  : Py UrbanSoundDataset unit :=
  l <- getattr f ;;
  setattr upd (l ++ [x]).

(** The body of the loop of [__init__]. *)
Definition init_body (csvData : DataFrame) (folderList : list Z) (i : Z)
  : Py UrbanSoundDataset unit :=
  fold <- pure (iloc csvData i 5) ;;
  if cell_in fold folderList then
    name <- pure (iloc csvData i 0) ;;
    append file_names set_file_names name ;;
    label <- pure (iloc csvData i 6) ;;
    append labels set_labels label ;;
    fold' <- pure (iloc csvData i 5) ;;
    append folders set_folders fold'
  else ret tt.

(** [UrbanSoundDataset.__init__(self, csv_path, file_path, folderList)] *)
Definition __init__ (csv_path file_path : string) (folderList : list Z)
  : Py UrbanSoundDataset unit :=
  csvData <- pure (pd_read_csv csv_path) ;;
  setattr set_file_names [] ;;
  setattr set_labels [] ;;
  setattr set_folders [] ;;
  for_each (range 0 (Z.of_nat (length csvData))) (init_body csvData folderList) ;;
  setattr set_file_path file_path ;;
  setattr set_mixer DownmixMono ;;
  setattr set_folderList folderList.

(** The object on which [__init__] starts.  It has no attribute yet;
    [__init__] assigns each attribute before anything reads it, so the
    values given here are never observed. *)
Definition fresh_object : UrbanSoundDataset :=
  {| file_names := []; labels := []; folders := [];
     file_path := ""; mixer := fun _ => []; folderList := [] |}.

(** The call [UrbanSoundDataset(csv_path, file_path, folderList)]: the
    object when [__init__] returns, the exception when it raises. *)
Definition UrbanSoundDataset_new (csv_path file_path : string)
    (folderList : list Z) : result UrbanSoundDataset :=
  match __init__ csv_path file_path folderList fresh_object with
  | (Ok _, self) => Ok self
  | (Raise e, _) => Raise e
  end.

(** Lines "downsample the audio to ~8kHz" of [__getitem__]: from the
    one-channel [soundData] to [soundFormatted]. *)
Definition format_sound (soundData : list sample) : result (list sample) :=
  let tempData := zeros n160000 in
  tempData <-
    (if (numel soundData <? n160000)%nat
     then setitem_prefix tempData (numel soundData) soundData
     else setitem_all tempData (firstn n160000 soundData)) ;;
  let soundData := tempData in
  let soundFormatted := zeros n32000 in
  soundFormatted <- setitem_prefix soundFormatted n32000 (slice_step 5 soundData) ;;
  ret soundFormatted.

(** The path that [__getitem__] loads. *)
Definition sound_path (index : Z) : Py UrbanSoundDataset string :=
  fp <- getattr file_path ;;
  fs <- getattr folders ;;
  fold <- pure (py_getitem fs index) ;;
  ns <- getattr file_names ;;
  name <- pure (py_getitem ns index) ;;
  pure (str_add (fp ++ "fold" ++ str fold ++ "/")%string name).

(** [self[index]] *)
Definition __getitem__ (index : Z) : Py UrbanSoundDataset (list sample * cell) :=
  path <- sound_path index ;;
  sound <- pure (torchaudio_load path) ;;
  mix <- getattr mixer ;;
  let soundData := mix (fst sound) in
  soundFormatted <- pure (format_sound soundData) ;;
  ls <- getattr labels ;;
  label <- pure (py_getitem ls index) ;;
  ret (soundFormatted, label).

(** [len(self)] *)
Definition __len__ : Py UrbanSoundDataset Z :=
  ns <- getattr file_names ;;
  ret (Z.of_nat (length ns)).

End Dataset.

(** ** Reference definitions

    Properties are stated against these: the specification's own words, and
    two functions that describe a method without its object state. *)

Section Reference.
Context {ext : Externals}.

(** "take a fixed-length prefix of 160000 samples (zero-padding if
    shorter)" *)
Definition pad_or_truncate (soundData : list sample) : list sample :=
  firstn n160000 soundData ++ repeat zero (n160000 - length soundData).

(** "the number of metadata rows whose fold number is in the given fold
    subset": the fold number is the sixth column (position 5). *)
Definition row_matches (folderList : list Z) (row : list cell) : bool :=
  match nth_error row 5 with
  | Some fold => cell_in fold folderList
  | None => false
  end.

Definition matching_rows (csvData : DataFrame) (folderList : list Z)
  : list (list cell) :=
  filter (row_matches folderList) csvData.

(** The three lists when the loop of [__init__] has gone through [rows],
    from the lists [acc] it started with: a recursion on the rows, used to
    reason about the loop. *)
Fixpoint collect (rows : list (list cell)) (folderList : list Z)
    (acc : list cell * list cell * list cell)
  : result (list cell * list cell * list cell) :=
  match rows with
  | [] => Ok acc
  | row :: rows' =>
      match nth_error row 5 with
      | None => Raise IndexError
      | Some fold =>
          if cell_in fold folderList then
            match nth_error row 0, nth_error row 6 with
            | Some name, Some label =>
                let '(ns, ls, fs) := acc in
                collect rows' folderList
                  (ns ++ [name], ls ++ [label], fs ++ [fold])
            | _, _ => Raise IndexError
            end
          else collect rows' folderList acc
      end
  end.

(** "a pure function (index -> Sample)": the sample as a function of the
    object's fields and the index, with no object state threaded. *)
Definition sample_at (self : UrbanSoundDataset) (index : Z)
  : result (list sample * cell) :=
  fold <- py_getitem (folders self) index ;;
  name <- py_getitem (file_names self) index ;;
  path <- str_add (file_path self ++ "fold" ++ str fold ++ "/")%string name ;;
  sound <- torchaudio_load path ;;
  soundFormatted <- format_sound (mixer self (fst sound)) ;;
  label <- py_getitem (labels self) index ;;
  ret (soundFormatted, label).

End Reference.

(** ** Evaluation *)

Section Evaluation.
Context {ext : Externals}.

(** A [torch.utils.data.DataLoader] over the samples [dataset] (the values
    [dataset[0]], [dataset[1]], ... with integer labels).  The order in
    which its sampler yields the samples is an argument of the iteration. *)
Record DataLoader : Type :=
  { dataset : list (list sample * Z);
    batch_size : nat }.

(** [torch.utils.data.DataLoader(dataset, batch_size = 128, shuffle = True)],
    as the notebook builds [train_loader] and [test_loader]: the random
    sampler that [shuffle = True] asks for refuses a dataset without
    samples. *)
Definition new_DataLoader (dataset : list (list sample * Z))
  : result DataLoader :=
  match dataset with
  | [] => Raise ValueError
  | _ :: _ => Ok {| dataset := dataset; batch_size := 128 |}
  end.

(** [l] cut into consecutive pieces of [k] elements, the last one shorter
    when [k] does not divide the length; [cur] is the piece being filled,
    in reverse, and [room] the number of elements it can still take. *)
Fixpoint chunk_from {A : Type} (k room : nat) (cur l : list A)
  : list (list A) :=
  match l with
  | [] => match cur with [] => [] | _ :: _ => [rev cur] end
  | x :: l' =>
      match room with
      | O => rev cur :: chunk_from k (Nat.pred k) [x] l'
      | S room' => chunk_from k room' (x :: cur) l'
      end
  end.

Definition chunk {A : Type} (k : nat) (l : list A) : list (list A) :=
  chunk_from k k [] l.

(** The pairs [(data, target)] of one pass over the loader, when its
    sampler draws the samples in the order [drawn]. *)
Definition iter_batches (loader : DataLoader) (drawn : list (list sample * Z))
  : list (list (list sample) * list Z) :=
  map (fun batch => (map fst batch, map snd batch))
      (chunk (batch_size loader) drawn).

(** [row.max(0)[1]]: the position of a largest entry of [row]. *)
Fixpoint argmax_from (best : Q) (best_at at_ : Z) (row : list Q) : Z :=
  match row with
  | [] => best_at
  | x :: row' =>
      if Qlt_le_dec best x
      then argmax_from x at_ (at_ + 1) row'
      else argmax_from best best_at (at_ + 1) row'
  end.

Definition argmax (row : list Q) : Z :=
  match row with
  | [] => 0
  | x :: row' => argmax_from x 0 1 row'
  end.

(** [a.eq(b).sum().item()] for [a] and [b] of the same size: the positions
    at which they agree. *)
Definition count_same (a b : list Z) : Z :=
  Z.of_nat (length (filter (fun ab => fst ab =? snd ab) (combine a b))).

(** [pred.eq(target).sum().item()] for [pred] of sizes [1 x n], given as its
    [n] entries, and [target] of size [m].  Equal sizes are compared entry
    by entry; a size of 1 is broadcast against the other size; any other
    two sizes raise [RuntimeError]. *)
Definition count_eq (pred target : list Z) : result Z :=
  if (length pred =? length target)%nat then Ok (count_same pred target)
  else
    match pred, target with
    | [p], _ => Ok (count_same (repeat p (length target)) target)
    | _, [t] => Ok (count_same pred (repeat t (length pred)))
    | _, _ => Raise RuntimeError
    end.

(** [a / b] on numbers *)
Definition truediv (a : Q) (b : Z) : result Q :=
  if b =? 0 then Raise ZeroDivisionError else Ok (a / inject_Z b)%Q.

(** [test(model, epoch)].  [model] maps a batch of waveforms to a tensor of
    sizes [n x 1 x C], given as its [n] rows of [C] log-probabilities; the
    network returns one row of ten for each waveform.  The result is what
    the function prints: the number of correct predictions, the size of the
    test set and the percentage. *)
Definition test (test_loader : DataLoader) (drawn : list (list sample * Z))
    (model : list (list sample) -> list (list Q)) (epoch : Z)
  : result (Z * Z * Q) :=
  correct <-
    fold_left
      (fun correct batch =>
         correct <- correct ;;
         let '(data, target) := batch in
         let output := model data in
         let pred := map argmax output in
         same <- count_eq pred target ;;
         ret (correct + same))
      (iter_batches test_loader drawn) (ret 0) ;;
  let total := Z.of_nat (length (dataset test_loader)) in
  percent <- truediv (100 * inject_Z correct) total ;;
  ret (correct, total, percent).

(** "match count against true labels", for a model that scores each
    waveform on its own: the samples whose largest score is at their
    label. *)
Definition classified (score : list sample -> list Q) (s : list sample * Z)
  : bool :=
  argmax (score (fst s)) =? snd s.

Definition match_count (score : list sample -> list Q)
    (samples : list (list sample * Z)) : Z :=
  Z.of_nat (length (filter (classified score) samples)).

End Evaluation.

(** ** The optimizer, the schedule and the epoch loop *)

(** [optim.Adam(model.parameters(), lr, weight_decay)]: the one parameter
    group's options.  Adam's own step reads [lr] and never assigns it. *)
Record Optimizer : Type :=
  { lr : Q;
    weight_decay : Q }.

(** [optim.lr_scheduler.StepLR(optimizer, step_size, gamma)] *)
Record StepLR : Type :=
  { base_lr : Q;
    step_size : Z;
    gamma : Q;
    last_epoch : Z }.

(** What the last cell does, as far as the schedule goes: a printed line,
    a scheduler step, an optimizer step (in which epoch, on which batch, at
    which learning rate), a call of [test]. *)
Inductive event : Type :=
| Printed (line : string)
| SchedulerStep
| OptimizerStep (epoch batch_idx : Z) (lr : Q)
| Test (epoch : Z).

(** The state of the last cell: the optimizer, the scheduler, and what has
    happened so far, oldest first. *)
Record Run : Type :=
  { optimizer : Optimizer;
    scheduler : StepLR;
    log : list event }.

Definition set_optimizer (v : Optimizer) (s : Run) : Run :=
  {| optimizer := v; scheduler := scheduler s; log := log s |}.

Definition set_scheduler (v : StepLR) (s : Run) : Run :=
  {| optimizer := optimizer s; scheduler := v; log := log s |}.

Definition set_log (v : list event) (s : Run) : Run :=
  {| optimizer := optimizer s; scheduler := scheduler s; log := v |}.

Definition record (e : event) : Py Run unit :=
  l <- getattr log ;;
  setattr set_log (l ++ [e]).

(** [StepLR.get_lr]: [base_lr * gamma ** (last_epoch // step_size)] *)
Definition get_lr (s : StepLR) : Q :=
  (base_lr s * gamma s ^ (last_epoch s / step_size s))%Q.

(** [scheduler.step()]: [last_epoch] goes up by one and the optimizer's
    [lr] is assigned [get_lr()]. *)
Definition scheduler_step : Py Run unit :=
  s <- getattr scheduler ;;
  let s' := {| base_lr := base_lr s; step_size := step_size s;
               gamma := gamma s; last_epoch := last_epoch s + 1 |} in
  setattr set_scheduler s' ;;
  o <- getattr optimizer ;;
  setattr set_optimizer {| lr := get_lr s'; weight_decay := weight_decay o |} ;;
  record SchedulerStep.

(** [train(model, epoch)], as far as the optimizer goes: one
    [optimizer.step()], at the optimizer's [lr], for each of the [batches]
    batches that [train_loader] yields.  The forward and backward passes and
    the progress lines touch neither the optimizer's options nor the
    scheduler. *)
Definition train (batches : nat) (epoch : Z) : Py Run unit :=
  for_each (range 0 (Z.of_nat batches))
    (fun batch_idx =>
       o <- getattr optimizer ;;
       record (OptimizerStep epoch batch_idx (lr o))).

(** The call [test(model, epoch)]; what it computes is [test] above. *)
Definition call_test (epoch : Z) : Py Run unit :=
  record (Test epoch).

(** The body of the epoch loop. *)
Definition epoch_body (batches : nat) (epoch : Z) : Py Run unit :=
  (if epoch =? 31
   then record (Printed "First round of training complete. Setting learn rate to 0.001.")
   else ret tt) ;;
  scheduler_step ;;
  train batches epoch ;;
  call_test epoch.

(** [for epoch in range(1, stop)] *)
Definition epoch_loop (batches : nat) (stop : Z) : Py Run unit :=
  for_each (range 1 stop) (epoch_body batches).

(** The state when the loop starts: [Adam] with [lr = 0.01] and
    [weight_decay = 0.0001], [StepLR] with [step_size = 20] and
    [gamma = 0.1].  [constructed] is the value of [last_epoch] when the
    constructor of [StepLR] returns: [-1] in torch 1.0, whose constructor
    sets it back after its first step, and [0] from torch 1.1 on. *)
Definition initial_run (constructed : Z) : Run :=
  {| optimizer := {| lr := 1 # 100; weight_decay := 1 # 10000 |};
     scheduler := {| base_lr := 1 # 100; step_size := 20; gamma := 1 # 10;
                     last_epoch := constructed |};
     log := [] |}.

(** The last cell of the notebook, [batches] being [len(train_loader)]. *)
Definition main (constructed : Z) (batches : nat) : result unit * Run :=
  epoch_loop batches 11 (initial_run constructed).

(** The learning rate in effect during [epoch], in the specification's
    words "a pure function of the epoch number". *)
Definition lr_of_epoch (constructed epoch : Z) : Q :=
  ((1 # 100) * (1 # 10) ^ ((constructed + epoch) / 20))%Q.

(** What one epoch adds to the log, and the log of the whole loop, stated
    from the specification: one scheduler step, then the training pass,
    every optimizer step of it at the epoch's learning rate, then the
    evaluation. *)
Definition epoch_events (constructed : Z) (batches : nat) (epoch : Z)
  : list event :=
  (if epoch =? 31
   then [Printed "First round of training complete. Setting learn rate to 0.001."]
   else [])
  ++ [SchedulerStep]
  ++ map (fun batch_idx =>
            OptimizerStep epoch batch_idx (lr_of_epoch constructed epoch))
       (range 0 (Z.of_nat batches))
  ++ [Test epoch].

Definition schedule_log (constructed : Z) (batches : nat) (stop : Z)
  : list event :=
  flat_map (epoch_events constructed batches) (range 1 stop).

(** The scheduler and the optimizer after [steps] steps of the scheduler
    built with [last_epoch = constructed], used to state the loop's
    invariant. *)
Definition stepped (constructed : Z) (steps : nat) : StepLR :=
  {| base_lr := 1 # 100; step_size := 20; gamma := 1 # 10;
     last_epoch := constructed + Z.of_nat steps |}.

Definition optimizer_after (constructed : Z) (before : Optimizer) (steps : nat)
  : Optimizer :=
  match steps with
  | O => before
  | S _ => {| lr := lr_of_epoch constructed (Z.of_nat steps);
              weight_decay := weight_decay before |}
  end.

(** ** The arithmetic of tensor entries

    The layers below are written once, over the operations that they apply
    to the entries of their tensors: the class [Arith].  [float32] gives
    these operations as the notebook's tensors have them (IEEE 754
    binary32, with its infinities and its NaN); [reals] gives those of the
    real numbers.  What is proved for every [Arith] holds of both. *)

Class Arith : Type :=
  { num : Type;
    num_zero : num;
    num_add : num -> num -> num;
    num_sub : num -> num -> num;
    num_mul : num -> num -> num;
    num_div : num -> num -> num;
    num_sqrt : num -> num;
    num_max : num -> num -> num;
    num_exp : num -> num;
    num_ln : num -> num;
    num_of_nat : nat -> num;
    num_1e_5 : num }.

Declare Scope num_scope.
Delimit Scope num_scope with num.
Infix "+" := num_add : num_scope.
Infix "-" := num_sub : num_scope.
Infix "*" := num_mul : num_scope.
Infix "/" := num_div : num_scope.


(** IEEE 754 binary32: 24 bits of precision, infinities at exponent 128,
    every operation rounded to nearest, ties to even.  [expf] and [logf]
    are the platform's exponential and logarithm, which give the values on
    finite arguments; on the other arguments the values are those of C99,
    Annex F. *)
Section Float32.
Variables expf logf : spec_float -> spec_float.

Definition f32_of_Z (z : Z) : spec_float := binary_normalize 24 128 z 0 false.

Definition f32_is_nan (x : spec_float) : bool :=
  match x with
  | S754_nan => true
  | _ => false
  end.


(** The larger of two numbers; a NaN operand is returned. *)
Definition f32_max (a b : spec_float) : spec_float :=
  if f32_is_nan a then a
  else if f32_is_nan b then b
  else if SFltb a b then b else a.

Definition f32_exp (x : spec_float) : spec_float :=
  match x with
  | S754_nan => S754_nan
  | S754_infinity false => S754_infinity false
  | S754_infinity true => S754_zero false
  | S754_zero _ => f32_of_Z 1
  | S754_finite _ _ _ => expf x
  end.

Definition f32_ln (x : spec_float) : spec_float :=
  match x with
  | S754_nan => S754_nan
  | S754_infinity false => S754_infinity false
  | S754_infinity true => S754_nan
  | S754_zero _ => S754_infinity true
  | S754_finite true _ _ => S754_nan
  | S754_finite false _ _ => logf x
  end.

Definition float32 : Arith :=
  {| num := spec_float;
     num_zero := S754_zero false;
     num_add := SFadd 24 128;
     num_sub := SFsub 24 128;
     num_mul := SFmul 24 128;
     num_div := SFdiv 24 128;
     num_sqrt := SFsqrt 24 128;
     num_max := f32_max;
     num_exp := f32_exp;
     num_ln := f32_ln;
     num_of_nat := fun n => f32_of_Z (Z.of_nat n);
     num_1e_5 := SFdiv 24 128 (f32_of_Z 1) (f32_of_Z 100000) |}.

End Float32.

(** ** The classifier network

    A tensor of rank 3 is its three sizes and its entries; an entry outside
    the sizes is never read.  A layer raises [RuntimeError] on an input
    whose sizes it does not accept.  The learnable parameters and the
    running statistics are arbitrary: they are entries of the layers,
    indexed like the tensors that hold them.  A sum is accumulated from its
    last term to its first; the order that a back end chooses can differ,
    which changes roundings only.  In training mode batch normalization
    also updates its running statistics; that write does not change what
    [forward] returns and is left out. *)

Section Network.
Context {A : Arith}.
Local Open Scope num_scope.

Record Tensor : Type :=
  { size0 : nat;
    size1 : nat;
    size2 : nat;
    item : nat -> nat -> nat -> num }.

(** The sum of [f 0], ..., [f (n - 1)]. *)
Definition sum_upto (n : nat) (f : nat -> num) : num :=
  fold_right (fun i acc => f i + acc) num_zero (seq 0 n).

(** The largest of [f 0], ..., [f (n - 1)]. *)
Definition max_upto (n : nat) (f : nat -> num) : num :=
  fold_right (fun i acc => num_max (f i) acc) (f 0%nat) (seq 1 (Nat.pred n)).

(** [nn.Conv1d(in_channels, out_channels, kernel_size, stride)] *)
Record Conv1d : Type :=
  { in_channels : nat;
    out_channels : nat;
    kernel_size : nat;
    stride : nat;
    conv_weight : nat -> nat -> nat -> num;
    conv_bias : nat -> num }.

Definition Conv1d_call (self : Conv1d) (x : Tensor) : result Tensor :=
  if ((size1 x =? in_channels self) && (kernel_size self <=? size2 x))%nat
  then Ok {| size0 := size0 x;
             size1 := out_channels self;
             size2 := (size2 x - kernel_size self) / stride self + 1;
             item := fun b oc t =>
               conv_bias self oc
               + sum_upto (in_channels self) (fun ic =>
                   sum_upto (kernel_size self) (fun k =>
                     conv_weight self oc ic k
                     * item x b ic (t * stride self + k))) |}
  else Raise RuntimeError.

(** [nn.BatchNorm1d(num_features)] *)
Record BatchNorm1d : Type :=
  { num_features : nat;
    bn_weight : nat -> num;
    bn_bias : nat -> num;
    running_mean : nat -> num;
    running_var : nat -> num;
    eps : num }.

(** The mean and the variance of channel [c] over the batch and the time. *)
Definition batch_mean (x : Tensor) (c : nat) : num :=
  sum_upto (size0 x) (fun b => sum_upto (size2 x) (fun t => item x b c t))
  / num_of_nat (size0 x * size2 x).

Definition batch_var (x : Tensor) (c : nat) : num :=
  sum_upto (size0 x) (fun b =>
    sum_upto (size2 x) (fun t =>
      (item x b c t - batch_mean x c) * (item x b c t - batch_mean x c)))
  / num_of_nat (size0 x * size2 x).

Definition BatchNorm1d_call (training : bool) (self : BatchNorm1d) (x : Tensor)
  : result Tensor :=
  if negb (size1 x =? num_features self)%nat then Raise RuntimeError
  else if training && (size0 x * size2 x =? 1)%nat then Raise ValueError
  else
    let mean := if training then batch_mean x else running_mean self in
    let var := if training then batch_var x else running_var self in
    Ok {| size0 := size0 x; size1 := size1 x; size2 := size2 x;
          item := fun b c t =>
            (item x b c t - mean c) / num_sqrt (var c + eps self)
            * bn_weight self c + bn_bias self c |}.

(** [F.relu] *)
Definition relu (x : Tensor) : Tensor :=
  {| size0 := size0 x; size1 := size1 x; size2 := size2 x;
     item := fun b c t => num_max num_zero (item x b c t) |}.

(** [nn.MaxPool1d(kernel_size)]; the stride is the kernel size. *)
Record MaxPool1d : Type := { max_kernel : nat }.

Definition MaxPool1d_call (self : MaxPool1d) (x : Tensor) : result Tensor :=
  if (max_kernel self <=? size2 x)%nat
  then Ok {| size0 := size0 x; size1 := size1 x;
             size2 := (size2 x - max_kernel self) / max_kernel self + 1;
             item := fun b c t =>
               max_upto (max_kernel self) (fun k =>
                 item x b c (t * max_kernel self + k)) |}
  else Raise RuntimeError.

(** [nn.AvgPool1d(kernel_size)]; the stride is the kernel size. *)
Record AvgPool1d : Type := { avg_kernel : nat }.

Definition AvgPool1d_call (self : AvgPool1d) (x : Tensor) : result Tensor :=
  if (avg_kernel self <=? size2 x)%nat
  then Ok {| size0 := size0 x; size1 := size1 x;
             size2 := (size2 x - avg_kernel self) / avg_kernel self + 1;
             item := fun b c t =>
               sum_upto (avg_kernel self) (fun k =>
                 item x b c (t * avg_kernel self + k))
               / num_of_nat (avg_kernel self) |}
  else Raise RuntimeError.

(** [x.permute(0, 2, 1)] *)
Definition permute_0_2_1 (x : Tensor) : Tensor :=
  {| size0 := size0 x; size1 := size2 x; size2 := size1 x;
     item := fun b i j => item x b j i |}.

(** [nn.Linear(in_features, out_features)] *)
Record Linear : Type :=
  { in_features : nat;
    out_features : nat;
    fc_weight : nat -> nat -> num;
    fc_bias : nat -> num }.

Definition Linear_call (self : Linear) (x : Tensor) : result Tensor :=
  if (size2 x =? in_features self)%nat
  then Ok {| size0 := size0 x; size1 := size1 x;
             size2 := out_features self;
             item := fun b r o =>
               sum_upto (in_features self) (fun i =>
                 item x b r i * fc_weight self o i)
               + fc_bias self o |}
  else Raise RuntimeError.

(** The largest entry of row [(b, r)] of [x]. *)
Definition row_max (x : Tensor) (b r : nat) : num :=
  max_upto (size2 x) (fun j => item x b r j).

(** [F.log_softmax(x, dim = 2)]: each entry less the largest entry of its
    row, less the logarithm of the sum of the exponentials of these
    differences. *)
Definition log_softmax_dim2 (x : Tensor) : Tensor :=
  {| size0 := size0 x; size1 := size1 x; size2 := size2 x;
     item := fun b r i =>
       (item x b r i - row_max x b r)
       - num_ln (sum_upto (size2 x) (fun j =>
                   num_exp (item x b r j - row_max x b r))) |}.

End Network.

Section Net.
Context {A : Arith}.

Record Net : Type :=
  { conv1 : Conv1d; bn1 : BatchNorm1d; pool1 : MaxPool1d;
    conv2 : Conv1d; bn2 : BatchNorm1d; pool2 : MaxPool1d;
    conv3 : Conv1d; bn3 : BatchNorm1d; pool3 : MaxPool1d;
    conv4 : Conv1d; bn4 : BatchNorm1d; pool4 : MaxPool1d;
    avgPool : AvgPool1d;
    fc1 : Linear;
    training : bool }.

(** The values that the parameters and the running statistics hold: for the
    convolution and the batch normalization of stage [n] (1 to 4), and for
    the linear layer. *)
Record Parameters : Type :=
  { conv_w : nat -> nat -> nat -> nat -> num;
    conv_b : nat -> nat -> num;
    bn_w : nat -> nat -> num;
    bn_b : nat -> nat -> num;
    bn_mean : nat -> nat -> num;
    bn_var : nat -> nat -> num;
    fc_w : nat -> nat -> num;
    fc_b : nat -> num }.

Definition new_Conv1d (p : Parameters) (n : nat)
    (in_channels out_channels kernel_size stride : nat) : Conv1d :=
  {| in_channels := in_channels; out_channels := out_channels;
     kernel_size := kernel_size; stride := stride;
     conv_weight := conv_w p n; conv_bias := conv_b p n |}.

Definition new_BatchNorm1d (p : Parameters) (n : nat) (num_features : nat)
  : BatchNorm1d :=
  {| num_features := num_features;
     bn_weight := bn_w p n; bn_bias := bn_b p n;
     running_mean := bn_mean p n; running_var := bn_var p n;
     eps := num_1e_5 |}.

(** The parameters with every weight at [w], every bias at [c0], every
    running mean at [mu] and every running variance at [var]. *)
Definition constant_parameters (w c0 mu var : num) : Parameters :=
  {| conv_w := fun _ _ _ _ => w;
     conv_b := fun _ _ => c0;
     bn_w := fun _ _ => w;
     bn_b := fun _ _ => c0;
     bn_mean := fun _ _ => mu;
     bn_var := fun _ _ => var;
     fc_w := fun _ _ => w;
     fc_b := fun _ => c0 |}.

(** [Net.__init__], with the parameters at the values [p] and the mode
    [training] that [model.train()] or [model.eval()] has set. *)
Definition Net_init (p : Parameters) (training : bool) : Net :=
  {| conv1 := new_Conv1d p 1 1 128 80 4;
     bn1 := new_BatchNorm1d p 1 128;
     pool1 := {| max_kernel := 4 |};
     conv2 := new_Conv1d p 2 128 128 3 1;
     bn2 := new_BatchNorm1d p 2 128;
     pool2 := {| max_kernel := 4 |};
     conv3 := new_Conv1d p 3 128 256 3 1;
     bn3 := new_BatchNorm1d p 3 256;
     pool3 := {| max_kernel := 4 |};
     conv4 := new_Conv1d p 4 256 512 3 1;
     bn4 := new_BatchNorm1d p 4 512;
     pool4 := {| max_kernel := 4 |};
     avgPool := {| avg_kernel := 30 |};
     fc1 := {| in_features := 512; out_features := 10;
               fc_weight := fc_w p; fc_bias := fc_b p |};
     training := training |}.

(** [Net.forward] *)
Definition forward (self : Net) (x : Tensor) : result Tensor :=
  x <- Conv1d_call (conv1 self) x ;;
  x <- BatchNorm1d_call (training self) (bn1 self) x ;;
  let x := relu x in
  x <- MaxPool1d_call (pool1 self) x ;;
  x <- Conv1d_call (conv2 self) x ;;
  x <- BatchNorm1d_call (training self) (bn2 self) x ;;
  let x := relu x in
  x <- MaxPool1d_call (pool2 self) x ;;
  x <- Conv1d_call (conv3 self) x ;;
  x <- BatchNorm1d_call (training self) (bn3 self) x ;;
  let x := relu x in
  x <- MaxPool1d_call (pool3 self) x ;;
  x <- Conv1d_call (conv4 self) x ;;
  x <- BatchNorm1d_call (training self) (bn4 self) x ;;
  let x := relu x in
  x <- MaxPool1d_call (pool4 self) x ;;
  x <- AvgPool1d_call (avgPool self) x ;;
  let x := permute_0_2_1 x in
  x <- Linear_call (fc1 self) x ;;
  ret (log_softmax_dim2 x).

(** A batch of waveforms as the tensor of sizes [B x 1 x 32000] that the
    loader hands to the network. *)
Definition batch_tensor (waveforms : list (list num)) : Tensor :=
  {| size0 := length waveforms; size1 := 1; size2 := n32000;
     item := fun b _ t => nth t (nth b waveforms []) num_zero |}.



End Net.

(** ** A small instance of the collaborators

    Amplitudes are rationals; a recording is the list of its frames, each
    the list of its channel values; [DownmixMono] averages the channels of
    each frame.  The metadata file ["meta.csv"] has the eight columns of
    UrbanSound8K (slice_file_name, fsID, start, end, salience, fold, classID,
    class) and two rows, one of fold 1 and one of fold 2; ["six.csv"] is a
    table cut after its sixth column. *)

Definition demo_table : DataFrame :=
  [ [CStr "a.wav"; CInt 100; CStr "0.0"; CStr "4.0"; CInt 1; CInt 1; CInt 3;
     CStr "dog_bark"];
    [CStr "b.wav"; CInt 101; CStr "0.5"; CStr "4.5"; CInt 1; CInt 2; CInt 9;
     CStr "street_music"] ].

Definition six_table : DataFrame :=
  [ [CStr "a.wav"; CInt 100; CStr "0.0"; CStr "4.0"; CInt 1; CInt 1] ].

Definition seven_table : DataFrame := map (firstn 7) demo_table.

Definition demo_read_csv (csv_path : string) : result DataFrame :=
  if String.eqb csv_path "meta.csv" then Ok demo_table
  else if String.eqb csv_path "six.csv" then Ok six_table
  else if String.eqb csv_path "seven.csv" then Ok seven_table
  else Raise OSError.

Definition demo_load (path : string) : result (list (list Q) * Z) :=
  if String.eqb path "audio/fold1/a.wav"
  then Ok ([[1; 3]; [2; 2]; [0; 1]; [4; 4]; [5; 7]; [6; 6]; [7; 7]]%Q, 44100)
  else Raise OSError.

Definition demo_mean (frame : list Q) : Q :=
  Qred (fold_right Qplus 0%Q frame / inject_Z (Z.of_nat (length frame))).

#[global] Instance demo_ext : Externals :=
  {| sample := Q;
     zero := 0%Q;
     tensor := list (list Q);
     pd_read_csv := demo_read_csv;
     torchaudio_load := demo_load;
     DownmixMono := map demo_mean |}.

(** The recording of [n] samples whose values are [start], [start + 1],
    ... *)
Fixpoint ramp (start : Z) (n : nat) : list Q :=
  match n with
  | O => []
  | S n' => inject_Z start :: ramp (start + 1) n'
  end.

(** The accessor that [UrbanSoundDataset("meta.csv", "audio/", [1])] builds
    from [demo_table]. *)
Definition demo_self : UrbanSoundDataset :=
  {| file_names := [CStr "a.wav"];
     labels := [CInt 3];
     folders := [CInt 1];
     file_path := "audio/";
     mixer := map demo_mean;
     folderList := [1] |}.

(** A test set of two samples, the loader that the notebook builds over
    it, and a model that puts the largest log-probability on class 3 when
    the waveform starts with 1 and on class 7 otherwise. *)
Definition demo_samples : list (list Q * Z) :=
  [([1; 2]%Q, 3); ([0; 5]%Q, 7)].

Definition demo_loader : DataLoader :=
  {| dataset := demo_samples; batch_size := 128 |}.

Definition demo_row (class : Z) : list Q :=
  map (fun j => if j =? class then 0%Q else (-1)%Q) (range 0 10).

Definition demo_score (waveform : list Q) : list Q :=
  match waveform with
  | x :: _ => if Qeq_bool x 1 then demo_row 3 else demo_row 7
  | [] => demo_row 0
  end.

Definition demo_model (data : list (list Q)) : list (list Q) :=
  map demo_score data.

(** A loader over no samples, as [DataLoader(dataset, batch_size = 128)]
    builds it without shuffling. *)
Definition unshuffled_empty_loader : DataLoader :=
  {| dataset := []; batch_size := 128 |}.


(** In binary32: the number 1; the number [2 ^ 127], which is finite; the
    parameters with every weight at 1, every bias at 0 and the running
    statistics at the mean 0 and the variance 1 that a new
    [nn.BatchNorm1d] has; a batch of one waveform with every sample at
    [2 ^ 127]. *)
Definition f32_one : spec_float := f32_of_Z 1.

Definition f32_2p127 : spec_float := S754_finite false 8388608 104.

Definition unit_parameters (expf logf : spec_float -> spec_float)
  : @Parameters (float32 expf logf) :=
  constant_parameters (A := float32 expf logf)
    f32_one (S754_zero false) (S754_zero false) f32_one.

Definition loud_batch (expf logf : spec_float -> spec_float)
  : @Tensor (float32 expf logf) :=
  batch_tensor (A := float32 expf logf) [repeat f32_2p127 n32000].

(** A stand-in for the platform's [expf] and [logf] where their values on
    finite arguments do not matter. *)
Definition no_libm (x : spec_float) : spec_float := x.

(** ** The two accessors of the notebook *)

Section Split.
Context {ext : Externals}.

(** [train_set = UrbanSoundDataset(csv_path, file_path, range(1,10))] *)
Definition train_set (csv_path file_path : string) : result UrbanSoundDataset :=
  UrbanSoundDataset_new csv_path file_path (range 1 10).

(** [test_set = UrbanSoundDataset(csv_path, file_path, [10])] *)
Definition test_set (csv_path file_path : string) : result UrbanSoundDataset :=
  UrbanSoundDataset_new csv_path file_path [10].

End Split.

(** A row that the loop of the constructor reads without raising: it has
    the fold column, and the class label column when it matches. *)
Definition row_readable (fl : list Z) (row : list cell) : Prop :=
  (6 <= length row)%nat /\ (row_matches fl row = true -> (7 <= length row)%nat).

(** The accessor over both rows of [demo_table]. *)
Definition demo_both : UrbanSoundDataset :=
  {| file_names := [CStr "a.wav"; CStr "b.wav"];
     labels := [CInt 3; CInt 9];
     folders := [CInt 1; CInt 2];
     file_path := "audio/";
     mixer := map demo_mean;
     folderList := [1; 2] |}.


(** The shortest waveform that [forward] accepts. *)
Definition n31468 : nat := Z.to_nat 31468.

(** * Properties *)

Arguments n160000 : simpl never.
Arguments n32000 : simpl never.

Ltac sizes := unfold n160000, n32000 in *; lia.

(** Unfold the monad operations, and nothing else. *)
Ltac run_result :=
  cbv beta iota delta [bind ret Monad_result].
Ltac run_result_in H :=
  cbv beta iota delta [bind ret Monad_result] in H.
Ltac run_py :=
  cbv beta iota delta [bind ret Monad_Py getattr setattr pure].

(** ** Lists *)

Lemma length_from_nth_error {A : Type} (l : list A) (n : nat) :
  (forall i, nth_error l i = None <-> (n <= i)%nat) -> length l = n.
Proof.
  intros H.
  assert (Hle : (n <= length l)%nat).
  { destruct (Nat.le_gt_cases n (length l)) as [Hc | Hc]; [exact Hc |].
    exfalso. assert (Hn : nth_error l (length l) = None)
      by (apply nth_error_None; lia).
    apply H in Hn. lia. }
  assert (Hge : (length l <= n)%nat).
  { apply nth_error_None. apply H. lia. }
  lia.
Qed.

Lemma skipn_repeat {A : Type} (a : A) (k n : nat) :
  skipn k (repeat a n) = repeat a (n - k).
Proof.
  revert k. induction n as [| n IH]; intros [| k]; simpl; auto.
Qed.

Lemma nth_error_repeat_lt {A : Type} (a : A) (n i : nat) :
  (i < n)%nat -> nth_error (repeat a n) i = Some a.
Proof.
  revert i. induction n as [| n IH]; intros [| i] Hi; simpl; try lia; auto.
  apply IH. lia.
Qed.


Section TensorFacts.
Context {ext : Externals}.

Lemma every_kth_nth_error (k' : nat) (t : list sample) :
  forall skip i,
    nth_error (every_kth k' skip t) i = nth_error t (skip + i * S k').
Proof.
  induction t as [| x t IH]; intros skip i.
  - simpl. destruct i; destruct (skip + _)%nat; reflexivity.
  - destruct skip as [| skip].
    + destruct i as [| i].
      * reflexivity.
      * simpl every_kth. simpl nth_error at 1. rewrite IH.
        replace (0 + S i * S k')%nat with (S (k' + i * S k')) by lia.
        reflexivity.
    + simpl every_kth. rewrite IH. reflexivity.
Qed.

Lemma slice_step_nth_error (k : nat) (t : list sample) (i : nat) :
  (1 <= k)%nat -> nth_error (slice_step k t) i = nth_error t (k * i).
Proof.
  intros Hk. unfold slice_step. rewrite every_kth_nth_error.
  f_equal. destruct k; simpl Nat.pred; lia.
Qed.

Lemma slice_step_length (k n m : nat) (t : list sample) :
  (1 <= k)%nat -> length t = n -> (forall i, n <= k * i <-> m <= i)%nat ->
  length (slice_step k t) = m.
Proof.
  intros Hk Hn Hm. apply length_from_nth_error. intros i.
  rewrite slice_step_nth_error by exact Hk.
  rewrite nth_error_None, Hn. apply Hm.
Qed.

End TensorFacts.

(** ** Formatting a recording *)

Section FormatFacts.
Context {ext : Externals}.

Lemma pad_or_truncate_length (soundData : list sample) :
  length (pad_or_truncate soundData) = n160000.
Proof.
  unfold pad_or_truncate.
  rewrite length_app, length_firstn, repeat_length. lia.
Qed.

Lemma pad_or_truncate_short (soundData : list sample) :
  (length soundData < n160000)%nat ->
  pad_or_truncate soundData
  = soundData ++ repeat zero (n160000 - length soundData).
Proof.
  intros H. unfold pad_or_truncate. rewrite firstn_all2 by lia. reflexivity.
Qed.

Lemma pad_or_truncate_long (soundData : list sample) :
  (n160000 <= length soundData)%nat ->
  pad_or_truncate soundData = firstn n160000 soundData.
Proof.
  intros H. unfold pad_or_truncate.
  replace (n160000 - length soundData)%nat with 0%nat by lia.
  simpl repeat. apply app_nil_r.
Qed.

Lemma setitem_prefix_exact (dst src : list sample) (k : nat) :
  length src = Nat.min k (length dst) ->
  setitem_prefix dst k src = Ok (src ++ skipn (length src) dst).
Proof.
  intros H. unfold setitem_prefix. rewrite <- H, Nat.eqb_refl. reflexivity.
Qed.

(** The first assignment of [__getitem__], in both branches, fills
    [tempData] with the padded or truncated recording. *)
Lemma tempData_filled (soundData : list sample) :
  (if (numel soundData <? n160000)%nat
   then setitem_prefix (zeros n160000) (numel soundData) soundData
   else setitem_all (zeros n160000) (firstn n160000 soundData))
  = Ok (pad_or_truncate soundData).
Proof.
  unfold numel, setitem_all, zeros.
  destruct (Nat.ltb_spec (length soundData) n160000) as [Hlt | Hge].
  - rewrite setitem_prefix_exact by (rewrite repeat_length; lia).
    rewrite skipn_repeat, pad_or_truncate_short by exact Hlt. reflexivity.
  - rewrite setitem_prefix_exact
      by (rewrite length_firstn, !repeat_length; lia).
    rewrite skipn_repeat, length_firstn, pad_or_truncate_long by exact Hge.
    replace (n160000 - Nat.min n160000 (length soundData))%nat with 0%nat by lia.
    simpl repeat. rewrite app_nil_r. reflexivity.
Qed.

Lemma decimated_length (soundData : list sample) :
  length (slice_step 5 (pad_or_truncate soundData)) = n32000.
Proof.
  apply slice_step_length with (n := n160000).
  - lia.
  - apply pad_or_truncate_length.
  - intros i. sizes.
Qed.

(** [format_sound] never raises: it returns every fifth row of the padded
    or truncated recording. *)
Lemma format_sound_eq (soundData : list sample) :
  format_sound soundData = Ok (slice_step 5 (pad_or_truncate soundData)).
Proof.
  unfold format_sound. rewrite tempData_filled.
  run_result.
  rewrite setitem_prefix_exact
    by (unfold zeros; rewrite decimated_length, repeat_length; lia).
  rewrite decimated_length. unfold zeros.
  rewrite skipn_repeat, Nat.sub_diag. simpl repeat. rewrite app_nil_r.
  reflexivity.
Qed.

End FormatFacts.

(** ** Python indexing *)

Lemma py_getitem_in_range {A : Type} (l : list A) (i : Z) :
  0 <= i < Z.of_nat (length l) ->
  exists a, py_getitem l i = Ok a /\ nth_error l (Z.to_nat i) = Some a.
Proof.
  intros Hi. unfold py_getitem.
  destruct (Z.ltb_spec i 0) as [Hneg | _]; [lia |].
  destruct (Z.leb_spec 0 i) as [_ | Hneg]; [| lia].
  destruct (Z.ltb_spec i (Z.of_nat (length l))) as [_ | Hbig]; [| lia].
  simpl andb. cbv iota.
  destruct (nth_error l (Z.to_nat i)) as [a |] eqn:Hnth.
  - exists a. split; reflexivity.
  - apply nth_error_None in Hnth. lia.
Qed.

(** ** The constructor *)

Section InitFacts.
Context {ext : Externals}.

Lemma py_getitem_nonneg {A : Type} (l : list A) (i : Z) :
  0 <= i ->
  py_getitem l i
  = match nth_error l (Z.to_nat i) with
    | Some a => Ok a
    | None => Raise IndexError
    end.
Proof.
  intros Hi. unfold py_getitem.
  destruct (Z.ltb_spec i 0) as [Hneg | _]; [lia |].
  destruct (Z.leb_spec 0 i) as [_ | Hneg]; [| lia].
  destruct (Z.ltb_spec i (Z.of_nat (length l))) as [_ | Hbig];
    [reflexivity |].
  simpl andb. cbv iota.
  destruct (nth_error l (Z.to_nat i)) eqn:Hnth; [| reflexivity].
  assert (nth_error l (Z.to_nat i) <> None) as Hlt by congruence.
  apply nth_error_Some in Hlt. lia.
Qed.

Lemma iloc_row (pre : list (list cell)) (row : list cell)
    (suf : list (list cell)) (j : Z) :
  0 <= j ->
  iloc (pre ++ row :: suf) (0 + Z.of_nat (length pre)) j
  = match nth_error row (Z.to_nat j) with
    | Some c => Ok c
    | None => Raise IndexError
    end.
Proof.
  intros Hj. unfold iloc. rewrite py_getitem_nonneg by lia.
  replace (Z.to_nat (0 + Z.of_nat (length pre))) with (length pre) by lia.
  rewrite nth_error_app2 by lia. rewrite Nat.sub_diag.
  cbn [nth_error]. run_result. apply py_getitem_nonneg. exact Hj.
Qed.

(** One turn of the loop, on the row it reads. *)
Lemma init_body_row (pre : list (list cell)) (row : list cell)
    (suf : list (list cell)) (fl : list Z) (self : UrbanSoundDataset) :
  init_body (pre ++ row :: suf) fl (0 + Z.of_nat (length pre)) self
  = match nth_error row 5 with
    | None => (Raise IndexError, self)
    | Some fold =>
        if cell_in fold fl then
          match nth_error row 0 with
          | None => (Raise IndexError, self)
          | Some name =>
              let self1 := set_file_names (file_names self ++ [name]) self in
              match nth_error row 6 with
              | None => (Raise IndexError, self1)
              | Some label =>
                  (Ok tt,
                   set_folders (folders self ++ [fold])
                     (set_labels (labels self ++ [label]) self1))
              end
          end
        else (Ok tt, self)
    end.
Proof.
  unfold init_body, append. run_py. rewrite !iloc_row by lia.
  change (Z.to_nat 5) with 5%nat. change (Z.to_nat 0) with 0%nat.
  change (Z.to_nat 6) with 6%nat.
  destruct (nth_error row 5) as [fold |]; [| reflexivity].
  destruct (cell_in fold fl); [| reflexivity].
  destruct (nth_error row 0) as [name |]; [| reflexivity].
  destruct (nth_error row 6) as [label |]; reflexivity.
Qed.

Lemma for_each_cons {A : Type} (x : A) (xs : list A)
    (body : A -> Py UrbanSoundDataset unit) (self : UrbanSoundDataset) :
  for_each (x :: xs) body self
  = match body x self with
    | (Ok _, self') => for_each xs body self'
    | (Raise e, self') => (Raise e, self')
    end.
Proof. reflexivity. Qed.

Lemma matching_rows_cons (folderList : list Z) (row : list cell)
    (rows : list (list cell)) :
  matching_rows (row :: rows) folderList
  = if row_matches folderList row
    then row :: matching_rows rows folderList
    else matching_rows rows folderList.
Proof. reflexivity. Qed.

Lemma collect_cons (fl : list Z) (row : list cell)
    (rows : list (list cell)) (ns ls fs : list cell) :
  collect (row :: rows) fl (ns, ls, fs)
  = match nth_error row 5 with
    | None => Raise IndexError
    | Some fold =>
        if cell_in fold fl then
          match nth_error row 0, nth_error row 6 with
          | Some name, Some label =>
              collect rows fl (ns ++ [name], ls ++ [label], fs ++ [fold])
          | _, _ => Raise IndexError
          end
        else collect rows fl (ns, ls, fs)
    end.
Proof. reflexivity. Qed.

(** The loop of [__init__], from any point on: it leaves in the three
    attributes what [collect] computes, and raises when [collect] does. *)
Lemma init_loop (fl : list Z) (suf : list (list cell)) :
  forall pre self,
    let r := for_each
               (map (fun k => 0 + Z.of_nat k) (seq (length pre) (length suf)))
               (init_body (pre ++ suf) fl) self in
    match collect suf fl (file_names self, labels self, folders self) with
    | Ok (ns, ls, fs) =>
        r = (Ok tt, set_folders fs (set_labels ls (set_file_names ns self)))
    | Raise e => fst r = Raise e
    end.
Proof.
  induction suf as [| row suf IH]; intros pre self r; subst r.
  - destruct self; reflexivity.
  - cbn [length seq map]. rewrite for_each_cons, init_body_row, collect_cons.
    destruct (nth_error row 5) as [fold |]; [| reflexivity].
    destruct (cell_in fold fl).
    + destruct (nth_error row 0) as [name |]; [| reflexivity].
      destruct (nth_error row 6) as [label |]; [| reflexivity].
      cbv zeta.
      specialize (IH (pre ++ [row])
                    (set_folders (folders self ++ [fold])
                       (set_labels (labels self ++ [label])
                          (set_file_names (file_names self ++ [name]) self)))).
      rewrite <- app_assoc, length_app in IH. cbn [length app] in IH.
      rewrite Nat.add_1_r in IH. cbv zeta in IH.
      cbn [file_names labels folders set_folders set_labels set_file_names]
        in IH.
      destruct (collect suf fl _) as [[[ns ls] fs] | e]; exact IH.
    + specialize (IH (pre ++ [row]) self).
      rewrite <- app_assoc, length_app in IH. cbn [length app] in IH.
      rewrite Nat.add_1_r in IH. exact IH.
Qed.

(** The constructor call in terms of [collect]. *)
Lemma new_via_collect (csv_path fp : string) (fl : list Z) :
  UrbanSoundDataset_new csv_path fp fl
  = match pd_read_csv csv_path with
    | Raise e => Raise e
    | Ok csvData =>
        match collect csvData fl ([], [], []) with
        | Raise e => Raise e
        | Ok (ns, ls, fs) =>
            Ok {| file_names := ns; labels := ls; folders := fs;
                  file_path := fp; mixer := DownmixMono; folderList := fl |}
        end
    end.
Proof.
  unfold UrbanSoundDataset_new, __init__. run_py.
  destruct (pd_read_csv csv_path) as [csvData | e]; [| reflexivity].
  unfold range. rewrite Z.sub_0_r, Nat2Z.id.
  pose proof (init_loop fl csvData []
                (set_folders [] (set_labels [] (set_file_names [] fresh_object))))
    as Hloop.
  cbv zeta in Hloop. cbn [app length] in Hloop.
  cbv beta iota delta [Monad_Py] in Hloop.
  change (file_names (set_folders _ _)) with (@nil cell) in Hloop.
  change (labels (set_folders _ _)) with (@nil cell) in Hloop.
  change (folders (set_folders _ _)) with (@nil cell) in Hloop.
  destruct (collect csvData fl ([], [], [])) as [[[ns ls] fs] | e].
  - rewrite Hloop. reflexivity.
  - match type of Hloop with
    | fst ?c = _ => destruct c as [[[] | e'] s']
    end; cbn [fst] in Hloop; congruence.
Qed.

(** What a successful run of the loop appends: one entry per matching row,
    in row order, each list from its own column of that row. *)
Lemma collect_ok (folderList : list Z) (rows : list (list cell)) :
  forall ns ls fs ns' ls' fs',
    collect rows folderList (ns, ls, fs) = Ok (ns', ls', fs') ->
    exists dn dl df,
      ns' = ns ++ dn /\ ls' = ls ++ dl /\ fs' = fs ++ df /\
      map (fun row => nth_error row 0) (matching_rows rows folderList)
      = map Some dn /\
      map (fun row => nth_error row 6) (matching_rows rows folderList)
      = map Some dl /\
      map (fun row => nth_error row 5) (matching_rows rows folderList)
      = map Some df.
Proof.
  induction rows as [| row rows IH]; intros ns ls fs ns' ls' fs' H.
  - simpl in H. injection H as -> -> ->.
    exists [], [], []. rewrite !app_nil_r. repeat split; reflexivity.
  - rewrite collect_cons in H.
    rewrite matching_rows_cons. unfold row_matches.
    destruct (nth_error row 5) as [fold |] eqn:H5; [| discriminate].
    destruct (cell_in fold folderList) eqn:Hin.
    + destruct (nth_error row 0) as [name |] eqn:H0; [| discriminate].
      destruct (nth_error row 6) as [label |] eqn:H6; [| discriminate].
      apply IH in H. destruct H as (dn & dl & df & -> & -> & -> & En & El & Ef).
      exists (name :: dn), (label :: dl), (fold :: df).
      rewrite <- !app_assoc. cbn [app map].
      rewrite H0, H6, H5, En, El, Ef.
      repeat split; reflexivity.
    + apply IH in H. exact H.
Qed.

(** The loop succeeds when every row has the columns it reads. *)
Lemma collect_total (folderList : list Z) (rows : list (list cell)) :
  Forall (fun row => (7 <= length row)%nat) rows ->
  forall acc, exists acc', collect rows folderList acc = Ok acc'.
Proof.
  induction 1 as [| row rows Hrow _ IH]; intros [[ns ls] fs].
  - eexists. reflexivity.
  - rewrite collect_cons.
    destruct (nth_error row 5) as [fold |] eqn:H5;
      [| apply nth_error_None in H5; lia].
    destruct (cell_in fold folderList); [| apply IH].
    destruct (nth_error row 0) as [name |] eqn:H0;
      [| apply nth_error_None in H0; lia].
    destruct (nth_error row 6) as [label |] eqn:H6;
      [| apply nth_error_None in H6; lia].
    apply IH.
Qed.

Lemma new_unfold (csv_path fp : string) (fl : list Z)
    (self : UrbanSoundDataset) :
  UrbanSoundDataset_new csv_path fp fl = Ok self ->
  exists csvData,
    pd_read_csv csv_path = Ok csvData /\
    collect csvData fl ([], [], [])
    = Ok (file_names self, labels self, folders self) /\
    file_path self = fp /\ mixer self = DownmixMono /\ folderList self = fl.
Proof.
  rewrite new_via_collect. intros H.
  destruct (pd_read_csv csv_path) as [csvData | e] eqn:Hcsv; [| discriminate].
  exists csvData. split; [reflexivity |].
  destruct (collect csvData fl ([], [], [])) as [[[ns ls] fs] | e];
    [| discriminate].
  injection H as <-. repeat split; reflexivity.
Qed.

End InitFacts.

(** ** The accessor's methods *)

Section AccessorFacts.
Context {ext : Externals}.

(** [__getitem__] computes [sample_at] and hands the object back as it was,
    also when it raises. *)
Lemma getitem_run (self : UrbanSoundDataset) (index : Z) :
  __getitem__ index self = (sample_at self index, self).
Proof.
  unfold __getitem__, sound_path, sample_at. run_py. run_result.
  destruct (py_getitem (folders self) index) as [fold | e]; [| reflexivity].
  destruct (py_getitem (file_names self) index) as [name | e]; [| reflexivity].
  destruct (str_add _ name) as [path | e]; [| reflexivity].
  destruct (torchaudio_load path) as [sound | e]; [| reflexivity].
  destruct (format_sound _) as [w | e]; [| reflexivity].
  destruct (py_getitem (labels self) index) as [label | e]; reflexivity.
Qed.

Lemma len_run (self : UrbanSoundDataset) :
  __len__ self = (Ok (Z.of_nat (length (file_names self))), self).
Proof. reflexivity. Qed.

(** After construction the three lists hold, position by position, columns
    0, 6 and 5 of the matching rows. *)
Lemma init_columns (csv_path fp : string) (fl : list Z) (csvData : DataFrame)
    (self : UrbanSoundDataset) :
  pd_read_csv csv_path = Ok csvData ->
  UrbanSoundDataset_new csv_path fp fl = Ok self ->
  map (fun row => nth_error row 0) (matching_rows csvData fl)
  = map Some (file_names self) /\
  map (fun row => nth_error row 6) (matching_rows csvData fl)
  = map Some (labels self) /\
  map (fun row => nth_error row 5) (matching_rows csvData fl)
  = map Some (folders self) /\
  file_path self = fp /\ mixer self = DownmixMono.
Proof.
  intros Hcsv Hinit.
  destruct (new_unfold _ _ _ _ Hinit) as (csv' & Hcsv' & Hcol & Hfp & Hmix & _).
  rewrite Hcsv in Hcsv'. injection Hcsv' as <-.
  apply collect_ok in Hcol.
  destruct Hcol as (dn & dl & df & Hn & Hl & Hf & En & El & Ef).
  simpl in Hn, Hl, Hf. subst dn dl df. auto.
Qed.

Lemma same_length_of_maps {A B C : Type} (f : A -> C) (g : B -> C)
    (l : list A) (l' : list B) :
  map f l = map g l' -> length l' = length l.
Proof.
  intros H. apply (f_equal (@length C)) in H. rewrite !length_map in H. auto.
Qed.

Lemma nth_error_of_maps {A B : Type} (f : A -> option B)
    (l : list A) (l' : list B) (i : nat) (a : A) :
  map f l = map Some l' -> nth_error l i = Some a ->
  nth_error l' i = f a.
Proof.
  intros H Ha.
  apply (f_equal (fun m => nth_error m i)) in H.
  rewrite !nth_error_map, Ha in H. simpl in H.
  destruct (nth_error l' i) as [b |]; simpl in H; congruence.
Qed.

(** The loop reads nothing beyond the seventh column of a row. *)
Lemma collect_firstn (fl : list Z) (rows : list (list cell)) :
  forall acc, collect (map (firstn 7) rows) fl acc = collect rows fl acc.
Proof.
  induction rows as [| row rows IH]; intros [[ns ls] fs]; [reflexivity |].
  cbn [map]. rewrite !collect_cons.
  rewrite !nth_error_firstn.
  change (5 <? 7)%nat with true. change (0 <? 7)%nat with true.
  change (6 <? 7)%nat with true. cbv iota.
  destruct (nth_error row 5) as [fold |]; [| reflexivity].
  destruct (cell_in fold fl); [| apply IH].
  destruct (nth_error row 0) as [name |]; [| reflexivity].
  destruct (nth_error row 6) as [label |]; [| reflexivity].
  apply IH.
Qed.

End AccessorFacts.

(** ** The claims about the dataset accessor *)

Section AccessorClaims.
Context {ext : Externals}.

Lemma init_lengths (csv_path fp : string) (fl : list Z)
    (self : UrbanSoundDataset) :
  UrbanSoundDataset_new csv_path fp fl = Ok self ->
  length (labels self) = length (file_names self) /\
  length (folders self) = length (file_names self).
Proof.
  intros Hinit.
  destruct (new_unfold _ _ _ _ Hinit) as (csvData & Hcsv & _).
  destruct (init_columns _ _ _ _ _ Hcsv Hinit) as (En & El & Ef & _).
  apply same_length_of_maps in En, El, Ef. lia.
Qed.

Lemma sound_path_run (self : UrbanSoundDataset) (index : Z) :
  sound_path index self
  = (fold <- py_getitem (folders self) index ;;
     name <- py_getitem (file_names self) index ;;
     str_add (file_path self ++ "fold" ++ str fold ++ "/")%string name,
     self).
Proof.
  unfold sound_path. run_py. run_result.
  destruct (py_getitem (folders self) index) as [fold | e]; [| reflexivity].
  destruct (py_getitem (file_names self) index) as [name | e]; [| reflexivity].
  reflexivity.
Qed.

(** C1.  For an accessor built by the constructor and an index in range,
    whenever the recording's path can be formed and the recording loads,
    [__getitem__] returns a waveform of exactly 32000 values, whatever the
    length of the recording: a recording of fewer than 160000 samples is
    padded with zeros, one of 160000 or more is cut to its first 160000,
    and then every fifth value is kept. *)
Theorem getitem_returns_32000 (csv_path fp : string) (fl : list Z)
    (self : UrbanSoundDataset) (count index : Z) (path : string)
    (sound : tensor * Z) :
  UrbanSoundDataset_new csv_path fp fl = Ok self ->
  fst (__len__ self) = Ok count ->
  0 <= index < count ->
  fst (sound_path index self) = Ok path ->
  torchaudio_load path = Ok sound ->
  let soundData := DownmixMono (fst sound) in
  exists soundFormatted label,
    __getitem__ index self = (Ok (soundFormatted, label), self) /\
    length soundFormatted = n32000 /\
    ((length soundData < n160000)%nat ->
     soundFormatted
     = slice_step 5 (soundData ++ repeat zero (n160000 - length soundData))) /\
    ((n160000 <= length soundData)%nat ->
     soundFormatted = slice_step 5 (firstn n160000 soundData)).
Proof.
  intros Hinit Hlen Hidx Hpath Hload soundData.
  rewrite len_run in Hlen. simpl in Hlen. injection Hlen as <-.
  destruct (init_lengths _ _ _ _ Hinit) as [Hl _].
  destruct (new_unfold _ _ _ _ Hinit) as (_ & _ & _ & _ & Hmix & _).
  destruct (py_getitem_in_range (labels self) index) as (label & Hlab & _);
    [lia |].
  rewrite sound_path_run in Hpath. cbn [fst] in Hpath.
  exists (slice_step 5 (pad_or_truncate soundData)), label.
  split; [| split; [| split]].
  - rewrite getitem_run. unfold sample_at. f_equal.
    run_result. run_result_in Hpath.
    destruct (py_getitem (folders self) index) as [fold | e]; [| discriminate].
    destruct (py_getitem (file_names self) index) as [name | e];
      [| discriminate].
    rewrite Hpath, Hload, Hmix, format_sound_eq, Hlab. reflexivity.
  - apply decimated_length.
  - intros Hshort. rewrite pad_or_truncate_short by exact Hshort. reflexivity.
  - intros Hlong. rewrite pad_or_truncate_long by exact Hlong. reflexivity.
Qed.



(** C3.  The count that an accessor reports is the number of rows of the
    metadata table whose fold number is in the fold list; and the
    constructor does build an accessor from every table whose rows have the
    seven columns it reads. *)
Theorem len_counts_matching_rows (csv_path fp : string) (fl : list Z)
    (csvData : DataFrame) :
  pd_read_csv csv_path = Ok csvData ->
  (forall self,
      UrbanSoundDataset_new csv_path fp fl = Ok self ->
      __len__ self = (Ok (Z.of_nat (length (matching_rows csvData fl))), self))
  /\
  (Forall (fun row => (7 <= length row)%nat) csvData ->
   exists self, UrbanSoundDataset_new csv_path fp fl = Ok self).
Proof.
  intros Hcsv. split.
  - intros self Hinit. rewrite len_run.
    destruct (init_columns _ _ _ _ _ Hcsv Hinit) as (En & _).
    apply same_length_of_maps in En. rewrite En. reflexivity.
  - intros Hcols. rewrite new_via_collect, Hcsv.
    destruct (collect_total fl csvData Hcols ([], [], []))
      as [[[ns ls] fs] ->].
    eexists. reflexivity.
Qed.

(** C5, as amended.  From a metadata table whose rows have at least seven
    columns the constructor builds an accessor; its file names, class labels
    and fold numbers are columns 0, 6 and 5 (counted from 0) of the matching
    rows; and no column after the seventh is read: any table with the same
    first seven columns gives the same accessor. *)
Theorem new_reads_seven_columns (csv_path fp : string) (fl : list Z)
    (csvData : DataFrame) :
  pd_read_csv csv_path = Ok csvData ->
  Forall (fun row => (7 <= length row)%nat) csvData ->
  exists self,
    UrbanSoundDataset_new csv_path fp fl = Ok self /\
    map Some (file_names self)
    = map (fun row => nth_error row 0) (matching_rows csvData fl) /\
    map Some (labels self)
    = map (fun row => nth_error row 6) (matching_rows csvData fl) /\
    map Some (folders self)
    = map (fun row => nth_error row 5) (matching_rows csvData fl) /\
    forall csv_path' csvData',
      pd_read_csv csv_path' = Ok csvData' ->
      map (firstn 7) csvData' = map (firstn 7) csvData ->
      UrbanSoundDataset_new csv_path' fp fl = Ok self.
Proof.
  intros Hcsv Hcols.
  destruct (collect_total fl csvData Hcols ([], [], [])) as [[[ns ls] fs] Hc].
  assert (Hnew : UrbanSoundDataset_new csv_path fp fl
                 = Ok {| file_names := ns; labels := ls; folders := fs;
                         file_path := fp; mixer := DownmixMono;
                         folderList := fl |})
    by (rewrite new_via_collect, Hcsv, Hc; reflexivity).
  eexists. split; [exact Hnew |].
  destruct (init_columns _ _ _ _ _ Hcsv Hnew) as (En & El & Ef & _).
  repeat split; try (symmetry; assumption).
  intros csv_path' csvData' Hcsv' Hsame.
  rewrite new_via_collect, Hcsv'.
  rewrite <- (collect_firstn fl csvData'), Hsame, collect_firstn, Hc.
  reflexivity.
Qed.

(** C9.  [__getitem__] and [__len__] hand the accessor back with every
    attribute as it was, also when they raise; the sample is the function
    [sample_at] of the attributes and the index; and a retrieval is not
    affected by the retrievals made before it. *)
Theorem getitem_frame (self : UrbanSoundDataset) (index : Z) :
  snd (__getitem__ index self) = self /\
  snd (__len__ self) = self /\
  fst (__getitem__ index self) = sample_at self index /\
  forall index',
    __getitem__ index' (snd (__getitem__ index self))
    = __getitem__ index' self.
Proof.
  rewrite getitem_run. repeat split.
Qed.

(** C10.  After construction the three lists have the length that
    [__len__] reports, the number of matching rows; position [i] of each
    holds its column of the [i]-th matching row, in row order; and for an
    index from 0 up to the count the three lookups of [__getitem__] are in
    bounds and the sample is the formatted recording at the path made of
    that row's fold and file name, paired with that row's label. *)
Theorem new_lists_aligned (csv_path fp : string) (fl : list Z)
    (csvData : DataFrame) (self : UrbanSoundDataset) :
  pd_read_csv csv_path = Ok csvData ->
  UrbanSoundDataset_new csv_path fp fl = Ok self ->
  let rows := matching_rows csvData fl in
  __len__ self = (Ok (Z.of_nat (length rows)), self) /\
  length (file_names self) = length rows /\
  length (labels self) = length rows /\
  length (folders self) = length rows /\
  (forall i row,
      nth_error rows i = Some row ->
      nth_error (file_names self) i = nth_error row 0 /\
      nth_error (labels self) i = nth_error row 6 /\
      nth_error (folders self) i = nth_error row 5) /\
  (forall index,
      0 <= index < Z.of_nat (length rows) ->
      exists row name label fold,
        nth_error rows (Z.to_nat index) = Some row /\
        nth_error row 0 = Some name /\
        nth_error row 6 = Some label /\
        nth_error row 5 = Some fold /\
        py_getitem (file_names self) index = Ok name /\
        py_getitem (labels self) index = Ok label /\
        py_getitem (folders self) index = Ok fold /\
        __getitem__ index self
        = (path <- str_add (fp ++ "fold" ++ str fold ++ "/")%string name ;;
           sound <- torchaudio_load path ;;
           soundFormatted <- format_sound (DownmixMono (fst sound)) ;;
           ret (soundFormatted, label),
           self)).
Proof.
  intros Hcsv Hnew rows.
  destruct (init_columns _ _ _ _ _ Hcsv Hnew) as (En & El & Ef & Hfp & Hmix).
  fold rows in En, El, Ef.
  pose proof (same_length_of_maps _ _ _ _ En) as Ln.
  pose proof (same_length_of_maps _ _ _ _ El) as Ll.
  pose proof (same_length_of_maps _ _ _ _ Ef) as Lf.
  assert (Hpos : forall i row,
             nth_error rows i = Some row ->
             nth_error (file_names self) i = nth_error row 0 /\
             nth_error (labels self) i = nth_error row 6 /\
             nth_error (folders self) i = nth_error row 5).
  { intros i row Hrow. repeat split.
    - exact (nth_error_of_maps _ _ _ _ _ En Hrow).
    - exact (nth_error_of_maps _ _ _ _ _ El Hrow).
    - exact (nth_error_of_maps _ _ _ _ _ Ef Hrow). }
  split; [rewrite len_run, Ln; reflexivity |].
  split; [exact Ln |]. split; [exact Ll |]. split; [exact Lf |].
  split; [exact Hpos |].
  intros index Hidx.
  destruct (nth_error rows (Z.to_nat index)) as [row |] eqn:Hrow;
    [| apply nth_error_None in Hrow; lia].
  destruct (Hpos _ _ Hrow) as (Pn & Pl & Pf).
  destruct (py_getitem_in_range (file_names self) index) as (name & Gn & Nn);
    [lia |].
  destruct (py_getitem_in_range (labels self) index) as (label & Gl & Nl);
    [lia |].
  destruct (py_getitem_in_range (folders self) index) as (fold & Gf & Nf);
    [lia |].
  exists row, name, label, fold.
  repeat split; try congruence.
  rewrite getitem_run. f_equal. unfold sample_at.
  rewrite Gf, Gn, Gl, Hfp, Hmix. run_result.
  destruct (str_add _ name) as [path | e]; [| reflexivity].
  destruct (torchaudio_load path) as [sound | e]; [| reflexivity].
  destruct (format_sound _) as [w | e]; reflexivity.
Qed.

End AccessorClaims.

(** ** The accessor on the small instance *)

Example demo_new :
  UrbanSoundDataset_new "meta.csv" "audio/" [1] = Ok demo_self.
Proof. reflexivity. Qed.

Example demo_getitem_first_values :
  match fst (__getitem__ 0 demo_self) with
  | Ok (soundFormatted, label) =>
      firstn 3 soundFormatted = [2; 6; 0]%Q /\ label = CInt 3
  | Raise _ => False
  end.
Proof. vm_compute. split; reflexivity. Qed.

Example demo_getitem_out_of_range :
  fst (__getitem__ 1 demo_self) = Raise IndexError.
Proof. reflexivity. Qed.

(** A recording of 160007 samples: the values at positions 0, 5, 10, ... of
    its first 160000 are kept, the last one being that at 159995. *)
Example demo_format_long :
  match format_sound (ramp 0 (Z.to_nat 160007)) with
  | Ok soundFormatted =>
      firstn 3 soundFormatted = [0; 5; 10]%Q /\
      nth_error soundFormatted (Z.to_nat 31999) = Some (159995 # 1) /\
      nth_error soundFormatted (Z.to_nat 32000) = None
  | Raise _ => False
  end.
Proof. vm_compute. repeat split. Qed.

Lemma getitem_returns_32000_witness :
  exists soundFormatted label,
    __getitem__ 0 demo_self = (Ok (soundFormatted, label), demo_self) /\
    length soundFormatted = n32000.
Proof.
  destruct (getitem_returns_32000 "meta.csv" "audio/" [1] demo_self 1 0
              "audio/fold1/a.wav"
              ([[1; 3]; [2; 2]; [0; 1]; [4; 4]; [5; 7]; [6; 6]; [7; 7]]%Q,
               44100))
    as (w & label & Hget & Hlen & _).
  - reflexivity.
  - reflexivity.
  - lia.
  - reflexivity.
  - reflexivity.
  - exists w, label. split; [exact Hget | exact Hlen].
Defined.


Lemma len_counts_matching_rows_witness :
  __len__ demo_self = (Ok 1, demo_self).
Proof.
  assert (Hcsv : pd_read_csv "meta.csv" = Ok demo_table) by reflexivity.
  destruct (len_counts_matching_rows "meta.csv" "audio/" [1] demo_table Hcsv)
    as [Hlen _].
  apply (Hlen demo_self). reflexivity.
Defined.

(** The claim C5 as worded fails on a table of six columns with a matching
    row: reading the class label, column 6, raises. *)
Lemma new_six_columns_raises :
  pd_read_csv "six.csv" = Ok six_table /\
  Forall (fun row => (6 <= length row)%nat) six_table /\
  UrbanSoundDataset_new "six.csv" "audio/" [1] = Raise IndexError /\
  ~ (exists self, UrbanSoundDataset_new "six.csv" "audio/" [1] = Ok self).
Proof.
  split; [reflexivity |].
  split; [repeat constructor |].
  split; [reflexivity |].
  intros [self H]. discriminate H.
Qed.

Lemma new_reads_seven_columns_witness :
  UrbanSoundDataset_new "seven.csv" "audio/" [1] = Ok demo_self.
Proof.
  assert (Hcsv : pd_read_csv "meta.csv" = Ok demo_table) by reflexivity.
  assert (Hcols : Forall (fun row => (7 <= length row)%nat) demo_table)
    by (repeat constructor).
  destruct (new_reads_seven_columns "meta.csv" "audio/" [1] demo_table
              Hcsv Hcols) as (self & Hnew & _ & _ & _ & Hsame).
  assert (Hself : self = demo_self).
  { assert (Hdemo : UrbanSoundDataset_new "meta.csv" "audio/" [1]
                    = Ok demo_self) by reflexivity.
    congruence. }
  rewrite <- Hself. apply (Hsame "seven.csv"%string seven_table); reflexivity.
Defined.

Lemma new_lists_aligned_witness :
  length (labels demo_self) = length (matching_rows demo_table [1]) /\
  exists row,
    nth_error (matching_rows demo_table [1]) 0 = Some row /\
    py_getitem (labels demo_self) 0 = nth_error_result row 6.
Proof.
  assert (Hcsv : pd_read_csv "meta.csv" = Ok demo_table) by reflexivity.
  assert (Hnew : UrbanSoundDataset_new "meta.csv" "audio/" [1] = Ok demo_self)
    by reflexivity.
  destruct (new_lists_aligned "meta.csv" "audio/" [1] demo_table demo_self
              Hcsv Hnew) as (_ & _ & Hl & _ & _ & Hidx).
  split; [exact Hl |].
  destruct (Hidx 0) as (row & name & label & fold & Hrow & _ & H6 & _ & _ & Gl & _).
  - simpl. lia.
  - exists row. split; [exact Hrow |].
    rewrite Gl. unfold nth_error_result. rewrite H6. reflexivity.
Defined.

(** ** Evaluation *)

Lemma concat_chunk_from {A : Type} (k : nat) (l : list A) :
  forall room cur, concat (chunk_from k room cur l) = rev cur ++ l.
Proof.
  induction l as [| x l IH]; intros room cur.
  - destruct cur; simpl; rewrite ?app_nil_r; reflexivity.
  - destruct room as [| room]; simpl chunk_from.
    + simpl concat. rewrite IH. reflexivity.
    + rewrite IH. simpl rev. rewrite <- app_assoc. reflexivity.
Qed.

Lemma concat_chunk {A : Type} (k : nat) (l : list A) :
  concat (chunk k l) = l.
Proof. unfold chunk. rewrite concat_chunk_from. reflexivity. Qed.

Lemma count_same_bounds (pred target : list Z) :
  0 <= count_same pred target <= Z.of_nat (length target).
Proof.
  unfold count_same. split; [lia |].
  apply inj_le.
  etransitivity; [apply filter_length_le |].
  rewrite length_combine. lia.
Qed.

(** Predictions and targets of the same size are compared entry by
    entry. *)
Lemma count_eq_same_size (pred target : list Z) :
  length pred = length target ->
  count_eq pred target = Ok (count_same pred target).
Proof.
  intros Hlen. unfold count_eq.
  rewrite (proj2 (Nat.eqb_eq _ _) Hlen). reflexivity.
Qed.

Lemma filter_length_permutation {A : Type} (f : A -> bool) (l l' : list A) :
  Permutation l l' -> length (filter f l) = length (filter f l').
Proof.
  induction 1 as [| a l l' _ IH | a b l | l l' l'' _ IH1 _ IH2].
  - reflexivity.
  - simpl. destruct (f a); simpl; congruence.
  - simpl. destruct (f a), (f b); reflexivity.
  - congruence.
Qed.

Section EvaluationFacts.
Context {ext : Externals}.

Lemma match_count_app (score : list sample -> list Q)
    (l l' : list (list sample * Z)) :
  match_count score (l ++ l') = match_count score l + match_count score l'.
Proof.
  unfold match_count. rewrite filter_app, length_app. lia.
Qed.

Lemma match_count_permutation (score : list sample -> list Q)
    (l l' : list (list sample * Z)) :
  Permutation l l' -> match_count score l = match_count score l'.
Proof.
  intros Hperm. unfold match_count.
  rewrite (filter_length_permutation _ _ _ Hperm). reflexivity.
Qed.

Lemma match_count_all (score : list sample -> list Q)
    (l : list (list sample * Z)) :
  forallb (classified score) l = true ->
  match_count score l = Z.of_nat (length l).
Proof.
  intros Hall. unfold match_count. f_equal.
  induction l as [| s l IH]; [reflexivity |].
  cbn [forallb] in Hall. apply andb_prop in Hall. destruct Hall as [Hs Hl].
  cbn [filter]. rewrite Hs. cbn [length]. rewrite IH by exact Hl.
  reflexivity.
Qed.

(** One batch, for a model that scores each waveform on its own. *)
Lemma count_eq_per_sample (score : list sample -> list Q)
    (batch : list (list sample * Z)) :
  count_eq (map argmax (map score (map fst batch))) (map snd batch)
  = Ok (match_count score batch).
Proof.
  rewrite count_eq_same_size by (rewrite !length_map; reflexivity).
  f_equal. unfold count_same, match_count. f_equal.
  induction batch as [| [x y] batch IH]; [reflexivity |].
  cbn [map combine filter fst snd]. unfold classified at 1. cbn [fst snd].
  destruct (argmax (score x) =? y); cbn [length]; rewrite IH; reflexivity.
Qed.

(** The loop of [test], for a model that scores each waveform on its own,
    over the batches made of [chunks]. *)
Lemma test_loop_per_sample (score : list sample -> list Q)
    (chunks : list (list (list sample * Z))) :
  forall correct : Z,
    fold_left
      (fun (correct : result Z) (batch : list (list sample) * list Z) =>
         correct <- correct ;;
         let '(data, target) := batch in
         let output := map score data in
         let pred := map argmax output in
         same <- count_eq pred target ;;
         ret (correct + same))
      (map (fun batch => (map fst batch, map snd batch)) chunks)
      (Ok correct)
    = Ok (correct + match_count score (concat chunks)).
Proof.
  match goal with
  | |- forall _, fold_left ?f _ _ = _ => set (step := f)
  end.
  induction chunks as [| batch chunks IH]; intros correct.
  - cbn. f_equal. unfold match_count. simpl. lia.
  - cbn [map fold_left concat].
    replace (step (Ok correct) (map fst batch, map snd batch))
      with (Ok (A := Z) (correct + match_count score batch))
      by (unfold step; run_result; cbv zeta;
          rewrite count_eq_per_sample; reflexivity).
    rewrite IH, match_count_app. f_equal. lia.
Qed.

(** The loop of [test] when the model returns as many rows as the batch
    has waveforms. *)
Lemma test_loop_bounds (model : list (list sample) -> list (list Q))
    (batches : list (list (list sample) * list Z)) :
  (forall data target,
      In (data, target) batches -> length (model data) = length target) ->
  forall correct : Z,
  exists same : Z,
    fold_left
      (fun (correct : result Z) (batch : list (list sample) * list Z) =>
         correct <- correct ;;
         let '(data, target) := batch in
         let output := model data in
         let pred := map argmax output in
         same <- count_eq pred target ;;
         ret (correct + same))
      batches (Ok correct)
    = Ok (correct + same) /\
    0 <= same <= Z.of_nat (length (concat (map snd batches))).
Proof.
  match goal with
  | |- _ -> forall _, exists _, fold_left ?f _ _ = _ /\ _ => set (step := f)
  end.
  induction batches as [| [data target] batches IH]; intros Hrows correct.
  - exists 0. cbn. split; [f_equal; lia | lia].
  - cbn [map fold_left concat snd].
    replace (step (Ok correct) (data, target))
      with (Ok (A := Z)
              (correct + count_same (map argmax (model data)) target))
      by (unfold step; run_result; cbv zeta;
          rewrite count_eq_same_size
            by (rewrite length_map; apply Hrows; left; reflexivity);
          reflexivity).
    pose proof (count_same_bounds (map argmax (model data)) target) as Hb.
    destruct (IH (fun d t Hin => Hrows d t (or_intror Hin))
                (correct + count_same (map argmax (model data)) target))
      as (rest & Hrest & Hbound).
    exists (count_same (map argmax (model data)) target + rest).
    split.
    + rewrite Hrest. f_equal. lia.
    + rewrite length_app. lia.
Qed.

Lemma targets_of_batches (loader : DataLoader)
    (drawn : list (list sample * Z)) :
  concat (map snd (iter_batches loader drawn)) = map snd drawn.
Proof.
  unfold iter_batches. rewrite map_map. simpl.
  rewrite <- concat_map, concat_chunk. reflexivity.
Qed.

Lemma batches_aligned (loader : DataLoader) (drawn : list (list sample * Z))
    (data : list (list sample)) (target : list Z) :
  In (data, target) (iter_batches loader drawn) ->
  length data = length target.
Proof.
  unfold iter_batches. rewrite in_map_iff.
  intros (batch & Hb & _). injection Hb as <- <-.
  rewrite !length_map. reflexivity.
Qed.

(** [test], with its monad operations unfolded. *)
Lemma test_run (loader : DataLoader) (drawn : list (list sample * Z))
    (model : list (list sample) -> list (list Q)) (epoch : Z) :
  test loader drawn model epoch
  = match
      fold_left
        (fun (correct : result Z) (batch : list (list sample) * list Z) =>
           correct <- correct ;;
           let '(data, target) := batch in
           let output := model data in
           let pred := map argmax output in
           same <- count_eq pred target ;;
           ret (correct + same))
        (iter_batches loader drawn) (Ok 0)
    with
    | Ok correct =>
        let total := Z.of_nat (length (dataset loader)) in
        match truediv (100 * inject_Z correct) total with
        | Ok percent => Ok (correct, total, percent)
        | Raise e => Raise e
        end
    | Raise e => Raise e
    end.
Proof. reflexivity. Qed.

(** [test] for a model that scores each waveform on its own: the count is
    that of the samples drawn, whatever the batches. *)
Lemma test_per_sample (loader : DataLoader) (drawn : list (list sample * Z))
    (score : list sample -> list Q) (epoch : Z) :
  test loader drawn (map score) epoch
  = let correct := match_count score drawn in
    let total := Z.of_nat (length (dataset loader)) in
    match truediv (100 * inject_Z correct) total with
    | Ok percent => Ok (correct, total, percent)
    | Raise e => Raise e
    end.
Proof.
  rewrite test_run. unfold iter_batches. rewrite test_loop_per_sample.
  rewrite concat_chunk, Z.add_0_l. reflexivity.
Qed.

Lemma truediv_nonzero (a : Q) (b : Z) :
  b <> 0 -> truediv a b = Ok (a / inject_Z b)%Q.
Proof.
  intros Hb. unfold truediv.
  destruct (Z.eqb_spec b 0); [contradiction | reflexivity].
Qed.

Lemma length_nonzero {A : Type} (l : list A) :
  l <> [] -> Z.of_nat (length l) <> 0.
Proof. destruct l; [congruence | simpl length; lia]. Qed.

(** C4, as amended.  Over a test set that is not empty, the notebook's
    [DataLoader] builds the loader, and [test], run in evaluation mode where
    each waveform is scored on its own, reports the number of samples of
    the test set whose prediction equals their label, the size of the test
    set and 100 times their quotient, whatever the order of the draw; the
    percentage is 100 when every prediction equals its label.  An empty test
    set gives no report: [DataLoader(test_set, shuffle = True)] raises
    [ValueError], and [test] itself, on a loader over no samples, raises
    [ZeroDivisionError] at the division. *)
Theorem test_reports_accuracy (samples drawn : list (list sample * Z))
    (score : list sample -> list Q) (epoch : Z) :
  Permutation drawn samples ->
  let total := Z.of_nat (length samples) in
  let correct := match_count score samples in
  (samples <> [] ->
   exists loader,
     new_DataLoader samples = Ok loader /\
     dataset loader = samples /\
     test loader drawn (map score) epoch
     = Ok (correct, total, (100 * inject_Z correct / inject_Z total)%Q) /\
     (forallb (classified score) samples = true ->
      correct = total /\
      (100 * inject_Z correct / inject_Z total == 100)%Q)) /\
  (samples = [] ->
   new_DataLoader samples = Raise ValueError /\
   forall (loader : DataLoader) (model : list (list sample) -> list (list Q)),
     dataset loader = [] ->
     test loader drawn model epoch = Raise ZeroDivisionError).
Proof.
  intros Hperm total correct. split.
  - intros Hne.
    exists {| dataset := samples; batch_size := 128 |}.
    split; [destruct samples; [congruence | reflexivity] |].
    split; [reflexivity |]. split.
    + rewrite test_per_sample. cbv zeta. cbn [dataset].
      rewrite (match_count_permutation score drawn samples Hperm).
      fold total correct.
      rewrite truediv_nonzero by (apply length_nonzero; exact Hne).
      reflexivity.
    + intros Hall.
      assert (Hc : correct = total)
        by (apply match_count_all; exact Hall).
      split; [exact Hc |]. rewrite Hc.
      assert (Hpos : ~ (inject_Z total == 0)%Q).
      { unfold Qeq. simpl. pose proof (length_nonzero samples Hne).
        subst total. lia. }
      field. exact Hpos.
  - intros Hempty. subst samples. split; [reflexivity |].
    intros loader model Hdata.
    apply Permutation_sym, Permutation_nil in Hperm. subst drawn.
    unfold test, iter_batches. rewrite Hdata. reflexivity.
Qed.

End EvaluationFacts.

Example demo_test :
  test demo_loader (rev demo_samples) demo_model 1 = Ok (2, 2, (200 # 2)%Q).
Proof. vm_compute. reflexivity. Qed.

(** A model that returns no row makes the comparison of [test] raise; a
    model that returns a single row has it compared with every target of
    the batch. *)
Example test_no_rows :
  test demo_loader demo_samples (fun _ => []) 1 = Raise RuntimeError.
Proof. vm_compute. reflexivity. Qed.

Example test_one_row :
  test {| dataset := [([1]%Q, 3); ([2]%Q, 3)]; batch_size := 128 |}
    [([1]%Q, 3); ([2]%Q, 3)] (fun _ => [demo_row 3]) 1
  = Ok (2, 2, (200 # 2)%Q).
Proof. vm_compute. reflexivity. Qed.

Lemma test_reports_accuracy_witness :
  exists loader,
    new_DataLoader demo_samples = Ok loader /\
    test loader (rev demo_samples) demo_model 1
    = Ok (2, 2, (100 * inject_Z 2 / inject_Z 2)%Q).
Proof.
  destruct (test_reports_accuracy (ext := demo_ext) demo_samples
              (rev demo_samples) demo_score 1) as (Hsome & _).
  - apply Permutation_sym, Permutation_rev.
  - destruct Hsome as (loader & Hnew & _ & Htest & _); [discriminate |].
    exists loader. split; [exact Hnew | exact Htest].
Defined.

(** The claim C4 as worded fails on the empty test set: the notebook's
    loader over it is never built, so no accuracy is reported; and on a
    loader over no samples that was built without shuffling, the division
    by the count raises. *)
Lemma test_empty_raises :
  new_DataLoader (ext := demo_ext) [] = Raise ValueError /\
  ~ (exists report,
        (test_loader <- new_DataLoader (ext := demo_ext) [] ;;
         test test_loader [] demo_model 1) = Ok report) /\
  test unshuffled_empty_loader [] demo_model 1 = Raise ZeroDivisionError.
Proof.
  split; [reflexivity |]. split; [| reflexivity].
  intros [report H]. discriminate H.
Qed.

(** ** The schedule *)

Lemma for_each_run_cons (x : Z) (xs : list Z) (body : Z -> Py Run unit)
    (s : Run) :
  for_each (x :: xs) body s
  = match body x s with
    | (Ok _, s') => for_each xs body s'
    | (Raise e, s') => (Raise e, s')
    end.
Proof. reflexivity. Qed.

Lemma record_loop (ev : Z -> Q -> event) (xs : list Z) :
  forall s,
    for_each xs (fun x => o <- getattr optimizer ;; record (ev x (lr o))) s
    = (Ok tt,
       set_log (log s ++ map (fun x => ev x (lr (optimizer s))) xs) s).
Proof.
  induction xs as [| x xs IH]; intros s.
  - cbn [map for_each]. rewrite app_nil_r. destruct s; reflexivity.
  - cbn [map]. rewrite for_each_run_cons. unfold record at 1. run_py.
    rewrite IH. unfold set_log. cbn [optimizer scheduler log].
    rewrite <- app_assoc. reflexivity.
Qed.

Lemma train_run (batches : nat) (epoch : Z) (s : Run) :
  train batches epoch s
  = (Ok tt,
     set_log
       (log s ++ map (fun batch_idx =>
                        OptimizerStep epoch batch_idx (lr (optimizer s)))
                  (range 0 (Z.of_nat batches))) s).
Proof. unfold train. apply (record_loop (OptimizerStep epoch)). Qed.

Lemma epoch_body_run (constructed : Z) (batches steps : nat) (s : Run) :
  scheduler s = stepped constructed steps ->
  epoch_body batches (1 + Z.of_nat steps) s
  = (Ok tt,
     {| optimizer :=
          {| lr := lr_of_epoch constructed (1 + Z.of_nat steps);
             weight_decay := weight_decay (optimizer s) |};
        scheduler := stepped constructed (S steps);
        log := log s
               ++ epoch_events constructed batches (1 + Z.of_nat steps) |}).
Proof.
  intros Hs. unfold epoch_body, scheduler_step, call_test, record.
  unfold epoch_events.
  destruct (1 + Z.of_nat steps =? 31); run_py; rewrite train_run;
    cbv beta iota;
    cbn [optimizer scheduler log set_optimizer set_scheduler set_log];
    rewrite Hs; unfold get_lr, lr_of_epoch, stepped;
    cbn [base_lr step_size gamma last_epoch lr weight_decay];
    replace (constructed + Z.of_nat steps + 1)
      with (constructed + (1 + Z.of_nat steps)) by lia;
    replace (constructed + Z.of_nat (S steps))
      with (constructed + (1 + Z.of_nat steps)) by lia;
    rewrite <- ?app_assoc; reflexivity.
Qed.

Lemma epoch_loop_from (constructed : Z) (batches n : nat) :
  forall steps s,
    scheduler s = stepped constructed steps ->
    (n <> 0%nat \/ optimizer s = optimizer_after constructed (optimizer s) steps)
    ->
    for_each (map (fun k => 1 + Z.of_nat k) (seq steps n))
      (epoch_body batches) s
    = (Ok tt,
       {| optimizer := optimizer_after constructed (optimizer s) (steps + n);
          scheduler := stepped constructed (steps + n);
          log := log s
                 ++ flat_map (epoch_events constructed batches)
                      (map (fun k => 1 + Z.of_nat k) (seq steps n)) |}).
Proof.
  induction n as [| n IH]; intros steps s Hs Ho.
  - destruct Ho as [Ho | Ho]; [congruence |].
    cbn [seq map flat_map for_each].
    rewrite app_nil_r, Nat.add_0_r, <- Hs, <- Ho. destruct s; reflexivity.
  - cbn [seq map flat_map]. rewrite for_each_run_cons.
    rewrite (epoch_body_run constructed batches steps s Hs).
    rewrite (IH (S steps)).
    + cbn [log optimizer]. rewrite <- app_assoc.
      replace (S steps + n)%nat with (steps + S n)%nat by lia.
      replace (steps + S n)%nat with (S (steps + n)) by lia.
      reflexivity.
    + reflexivity.
    + right. cbn [optimizer optimizer_after weight_decay].
      replace (Z.of_nat (S steps)) with (1 + Z.of_nat steps) by lia.
      reflexivity.
Qed.



(** The notebook's ten epochs with two batches in the training set, for
    both values of [constructed]. *)
Example main_log :
  log (snd (main 0 2)) = log (snd (main (-1) 2)) /\
  log (snd (main 0 2))
  = flat_map
      (fun epoch =>
         [SchedulerStep;
          OptimizerStep epoch 0 (1 # 100); OptimizerStep epoch 1 (1 # 100);
          Test epoch])
      [1; 2; 3; 4; 5; 6; 7; 8; 9; 10].
Proof. vm_compute. split; reflexivity. Qed.

(** Thirty epochs: the rate of the optimizer steps drops to 0.001 at epoch
    20 when [constructed] is 0 and at epoch 21 when it is -1. *)
Example decay_epoch :
  (In (OptimizerStep 19 0 (1 # 100)) (log (snd (epoch_loop 1 31 (initial_run 0)))) /\
   In (OptimizerStep 20 0 (1 # 1000)) (log (snd (epoch_loop 1 31 (initial_run 0))))) /\
  (In (OptimizerStep 20 0 (1 # 100)) (log (snd (epoch_loop 1 31 (initial_run (-1))))) /\
   In (OptimizerStep 21 0 (1 # 1000)) (log (snd (epoch_loop 1 31 (initial_run (-1)))))).
Proof. vm_compute. intuition. Qed.


(** ** The network *)

Arguments n31468 : simpl never.

Ltac sizes' := unfold n31468, n160000, n32000 in *; lia.

Ltac shape_side :=
  cbn [in_channels out_channels kernel_size stride num_features max_kernel
       avg_kernel in_features out_features new_Conv1d new_BatchNorm1d
       size0 size1 size2 relu permute_0_2_1 log_softmax_dim2] in *;
  sizes'.


(** A layer that succeeds, with a lower bound on the length it returns. *)
Ltac layer_ge L x C T :=
  let y := fresh "y" in
  let E := fresh "E" in
  let S0 := fresh "S0" in
  let S1 := fresh "S1" in
  let S2 := fresh "S2" in
  destruct L as (y & E & S0 & S1 & S2);
  [try shape_side ..
  | rewrite E; cbv beta iota; clear E;
    let B := fresh "HB" in
    let HC := fresh "HC" in
    let HT := fresh "HT" in
    assert (B : size0 y = size0 x) by shape_side;
    assert (HC : size1 y = Z.to_nat C) by shape_side;
    assert (HT : (Z.to_nat T <= size2 y)%nat) by shape_side;
    clear S0 S1 S2].

(** A layer that raises, or succeeds with an upper bound on the length it
    returns. *)
Ltac conv_le L T :=
  let e := fresh "e" in
  let y := fresh "y" in
  let E := fresh "E" in
  let S1 := fresh "S1" in
  let S2 := fresh "S2" in
  destruct L as [[e E] | (y & E & S1 & S2)];
  [rewrite E; exists e; reflexivity
  | rewrite E; cbv beta iota; clear E;
    let HT := fresh "HT" in
    assert (HT : (size2 y <= Z.to_nat T)%nat) by shape_side;
    clear S2].

Ltac other_le L T :=
  let e := fresh "e" in
  let y := fresh "y" in
  let E := fresh "E" in
  let S2 := fresh "S2" in
  destruct L as [[e E] | (y & E & S2)];
  [rewrite E; exists e; reflexivity
  | rewrite E; cbv beta iota; clear E;
    let HT := fresh "HT" in
    assert (HT : (size2 y <= Z.to_nat T)%nat) by shape_side;
    clear S2].

Section NetworkFacts.
Context {A : Arith}.

Lemma Conv1d_call_sizes (self : Conv1d) (x : Tensor) :
  size1 x = in_channels self ->
  (kernel_size self <= size2 x)%nat ->
  exists y,
    Conv1d_call self x = Ok y /\
    size0 y = size0 x /\ size1 y = out_channels self /\
    size2 y = ((size2 x - kernel_size self) / stride self + 1)%nat.
Proof.
  intros Hc Hk. unfold Conv1d_call.
  rewrite (proj2 (Nat.eqb_eq _ _) Hc), (proj2 (Nat.leb_le _ _) Hk).
  eexists. split; [reflexivity |]. repeat split.
Qed.

Lemma BatchNorm1d_call_sizes (mode : bool) (self : BatchNorm1d)
    (x : Tensor) :
  size1 x = num_features self ->
  (2 <= size2 x)%nat ->
  exists y,
    BatchNorm1d_call mode self x = Ok y /\
    size0 y = size0 x /\ size1 y = size1 x /\ size2 y = size2 x.
Proof.
  intros Hc Hl. unfold BatchNorm1d_call.
  rewrite (proj2 (Nat.eqb_eq _ _) Hc). cbn [negb].
  replace (size0 x * size2 x =? 1)%nat with false.
  - rewrite andb_false_r. eexists. split; [reflexivity |]. repeat split.
  - symmetry. apply Nat.eqb_neq. intros H1.
    apply Nat.eq_mul_1 in H1. lia.
Qed.

Lemma MaxPool1d_call_sizes (self : MaxPool1d) (x : Tensor) :
  (max_kernel self <= size2 x)%nat ->
  exists y,
    MaxPool1d_call self x = Ok y /\
    size0 y = size0 x /\ size1 y = size1 x /\
    size2 y = ((size2 x - max_kernel self) / max_kernel self + 1)%nat.
Proof.
  intros Hk. unfold MaxPool1d_call. rewrite (proj2 (Nat.leb_le _ _) Hk).
  eexists. split; [reflexivity |]. repeat split.
Qed.

Lemma AvgPool1d_call_sizes (self : AvgPool1d) (x : Tensor) :
  (avg_kernel self <= size2 x)%nat ->
  exists y,
    AvgPool1d_call self x = Ok y /\
    size0 y = size0 x /\ size1 y = size1 x /\
    size2 y = ((size2 x - avg_kernel self) / avg_kernel self + 1)%nat.
Proof.
  intros Hk. unfold AvgPool1d_call. rewrite (proj2 (Nat.leb_le _ _) Hk).
  eexists. split; [reflexivity |]. repeat split.
Qed.

Lemma Linear_call_sizes (self : Linear) (x : Tensor) :
  size2 x = in_features self ->
  exists y,
    Linear_call self x = Ok y /\
    size0 y = size0 x /\ size1 y = size1 x /\ size2 y = out_features self.
Proof.
  intros Hf. unfold Linear_call. rewrite (proj2 (Nat.eqb_eq _ _) Hf).
  eexists. split; [reflexivity |]. repeat split.
Qed.

Lemma Conv1d_call_either (self : Conv1d) (x : Tensor) :
  (exists e, Conv1d_call self x = Raise e) \/
  (exists y,
      Conv1d_call self x = Ok y /\ size1 x = in_channels self /\
      size2 y = ((size2 x - kernel_size self) / stride self + 1)%nat).
Proof.
  unfold Conv1d_call.
  destruct (Nat.eqb_spec (size1 x) (in_channels self)) as [Hc | Hc];
    [| left; eexists; reflexivity].
  destruct (kernel_size self <=? size2 x)%nat;
    [right | left; eexists; reflexivity].
  eexists. repeat split. exact Hc.
Qed.

Lemma BatchNorm1d_call_either (mode : bool) (self : BatchNorm1d) (x : Tensor) :
  (exists e, BatchNorm1d_call mode self x = Raise e) \/
  (exists y, BatchNorm1d_call mode self x = Ok y /\ size2 y = size2 x).
Proof.
  unfold BatchNorm1d_call.
  destruct (negb _); [left; eexists; reflexivity |].
  destruct (mode && _); [left; eexists; reflexivity |].
  right. eexists. split; reflexivity.
Qed.

Lemma MaxPool1d_call_either (self : MaxPool1d) (x : Tensor) :
  (exists e, MaxPool1d_call self x = Raise e) \/
  (exists y,
      MaxPool1d_call self x = Ok y /\
      size2 y = ((size2 x - max_kernel self) / max_kernel self + 1)%nat).
Proof.
  unfold MaxPool1d_call.
  destruct (max_kernel self <=? size2 x)%nat;
    [right | left; eexists; reflexivity].
  eexists. split; reflexivity.
Qed.

Lemma AvgPool1d_call_short (self : AvgPool1d) (x : Tensor) :
  (size2 x < avg_kernel self)%nat ->
  AvgPool1d_call self x = Raise RuntimeError.
Proof.
  intros Hk. unfold AvgPool1d_call.
  destruct (Nat.leb_spec (avg_kernel self) (size2 x)); [lia | reflexivity].
Qed.


(** [forward] on a long enough input of one channel: it returns the
    log-softmax of a tensor with ten entries per row. *)
Lemma forward_runs (p : Parameters) (mode : bool) (x : Tensor) :
  size1 x = 1%nat ->
  (n31468 <= size2 x)%nat ->
  exists y,
    forward (Net_init p mode) x = Ok (log_softmax_dim2 y) /\
    size0 y = size0 x /\ (1 <= size1 y)%nat /\ size2 y = 10%nat.
Proof.
  intros HC HL. unfold forward.
  cbn [conv1 bn1 pool1 conv2 bn2 pool2 conv3 bn3 pool3 conv4 bn4 pool4
       avgPool fc1 training Net_init].
  run_result.
  layer_ge (Conv1d_call_sizes (new_Conv1d p 1 1 128 80 4) x) x 128%Z 7848%Z.
  layer_ge (BatchNorm1d_call_sizes mode (new_BatchNorm1d p 1 128) y) x 128%Z 7848%Z.
  layer_ge (MaxPool1d_call_sizes {| max_kernel := 4 |} (relu y0)) x 128%Z 1962%Z.
  layer_ge (Conv1d_call_sizes (new_Conv1d p 2 128 128 3 1) y1) x 128%Z 1960%Z.
  layer_ge (BatchNorm1d_call_sizes mode (new_BatchNorm1d p 2 128) y2) x 128%Z 1960%Z.
  layer_ge (MaxPool1d_call_sizes {| max_kernel := 4 |} (relu y3)) x 128%Z 490%Z.
  layer_ge (Conv1d_call_sizes (new_Conv1d p 3 128 256 3 1) y4) x 256%Z 488%Z.
  layer_ge (BatchNorm1d_call_sizes mode (new_BatchNorm1d p 3 256) y5) x 256%Z 488%Z.
  layer_ge (MaxPool1d_call_sizes {| max_kernel := 4 |} (relu y6)) x 256%Z 122%Z.
  layer_ge (Conv1d_call_sizes (new_Conv1d p 4 256 512 3 1) y7) x 512%Z 120%Z.
  layer_ge (BatchNorm1d_call_sizes mode (new_BatchNorm1d p 4 512) y8) x 512%Z 120%Z.
  layer_ge (MaxPool1d_call_sizes {| max_kernel := 4 |} (relu y9)) x 512%Z 30%Z.
  layer_ge (AvgPool1d_call_sizes {| avg_kernel := 30 |} y10) x 512%Z 1%Z.
  destruct (Linear_call_sizes
              {| in_features := 512; out_features := 10;
                 fc_weight := fc_w p; fc_bias := fc_b p |}
              (permute_0_2_1 y11)) as (y12 & E & S0 & S1 & S2);
    [shape_side |].
  rewrite E. exists y12.
  split; [reflexivity |]. repeat split; shape_side.
Qed.

Lemma forward_raises (p : Parameters) (mode : bool) (x : Tensor) :
  size1 x <> 1%nat \/ (size2 x < n31468)%nat ->
  exists e, forward (Net_init p mode) x = Raise e.
Proof.
  intros Hbad. unfold forward.
  cbn [conv1 bn1 pool1 conv2 bn2 pool2 conv3 bn3 pool3 conv4 bn4 pool4
       avgPool fc1 training Net_init].
  run_result.
  destruct (Conv1d_call_either (new_Conv1d p 1 1 128 80 4) x)
    as [[e E] | (y & E & S1 & S2)];
    [rewrite E; exists e; reflexivity |].
  rewrite E. cbv beta iota. clear E.
  cbn [in_channels new_Conv1d] in S1.
  destruct Hbad as [Hbad | Hshort]; [contradiction |].
  assert (HT : (size2 y <= Z.to_nat 7847)%nat) by shape_side.
  clear S2.
  other_le (BatchNorm1d_call_either mode (new_BatchNorm1d p 1 128) y) 7847%Z.
  other_le (MaxPool1d_call_either {| max_kernel := 4 |} (relu y0)) 1961%Z.
  conv_le (Conv1d_call_either (new_Conv1d p 2 128 128 3 1) y1) 1959%Z.
  other_le (BatchNorm1d_call_either mode (new_BatchNorm1d p 2 128) y2) 1959%Z.
  other_le (MaxPool1d_call_either {| max_kernel := 4 |} (relu y3)) 489%Z.
  conv_le (Conv1d_call_either (new_Conv1d p 3 128 256 3 1) y4) 487%Z.
  other_le (BatchNorm1d_call_either mode (new_BatchNorm1d p 3 256) y5) 487%Z.
  other_le (MaxPool1d_call_either {| max_kernel := 4 |} (relu y6)) 121%Z.
  conv_le (Conv1d_call_either (new_Conv1d p 4 256 512 3 1) y7) 119%Z.
  other_le (BatchNorm1d_call_either mode (new_BatchNorm1d p 4 512) y8) 119%Z.
  other_le (MaxPool1d_call_either {| max_kernel := 4 |} (relu y9)) 29%Z.
  rewrite AvgPool1d_call_short by shape_side.
  exists RuntimeError. reflexivity.
Qed.





Local Open Scope num_scope.














End NetworkFacts.

(** *** The log-softmax in binary32 *)

Section Float32Facts.
Variables expf logf : spec_float -> spec_float.









End Float32Facts.


(** *** A waveform that overflows *)




Section Overflow.
Variables expf logf : spec_float -> spec_float.


End Overflow.


(** * Further properties of the accessor *)

Lemma py_getitem_out_of_range {A : Type} (l : list A) (i : Z) :
  i < - Z.of_nat (length l) \/ Z.of_nat (length l) <= i ->
  py_getitem l i = Raise IndexError.
Proof.
  intros Hi. unfold py_getitem.
  destruct (Z.ltb_spec i 0) as [Hneg | Hpos].
  - destruct (Z.leb_spec 0 (Z.of_nat (length l) + i)); [lia | reflexivity].
  - destruct (Z.leb_spec 0 i); [| lia].
    destruct (Z.ltb_spec i (Z.of_nat (length l))); [lia | reflexivity].
Qed.

Lemma py_getitem_negative {A : Type} (l : list A) (i : Z) :
  - Z.of_nat (length l) <= i < 0 ->
  py_getitem l i = py_getitem l (Z.of_nat (length l) + i).
Proof.
  intros Hi. unfold py_getitem.
  destruct (Z.ltb_spec i 0) as [_ | Hpos]; [| lia].
  destruct (Z.ltb_spec (Z.of_nat (length l) + i) 0) as [Hneg | _]; [lia |].
  reflexivity.
Qed.

Section AccessorErrors.
Context {ext : Externals}.

(** X1.  On an accessor built by the constructor, an index at or beyond the
    count, or below minus the count, makes [__getitem__] raise [IndexError];
    the accessor is unchanged. *)
Theorem getitem_out_of_range (csv_path fp : string) (fl : list Z)
    (self : UrbanSoundDataset) (count index : Z) :
  UrbanSoundDataset_new csv_path fp fl = Ok self ->
  fst (__len__ self) = Ok count ->
  index < - count \/ count <= index ->
  __getitem__ index self = (Raise IndexError, self).
Proof.
  intros Hnew Hlen Hidx.
  rewrite len_run in Hlen. cbn [fst] in Hlen. injection Hlen as <-.
  destruct (init_lengths _ _ _ _ Hnew) as [_ Hf].
  rewrite getitem_run. unfold sample_at.
  rewrite py_getitem_out_of_range by (rewrite Hf; exact Hidx).
  reflexivity.
Qed.

(** X2.  On an accessor built by the constructor, a negative index from
    minus the count on retrieves the sample counted from the end: index
    [-k] gives what index [count - k] gives. *)
Theorem getitem_negative_index (csv_path fp : string) (fl : list Z)
    (self : UrbanSoundDataset) (count index : Z) :
  UrbanSoundDataset_new csv_path fp fl = Ok self ->
  fst (__len__ self) = Ok count ->
  - count <= index < 0 ->
  __getitem__ index self = __getitem__ (count + index) self.
Proof.
  intros Hnew Hlen Hidx.
  rewrite len_run in Hlen. cbn [fst] in Hlen. injection Hlen as <-.
  destruct (init_lengths _ _ _ _ Hnew) as [Hl Hf].
  rewrite !getitem_run. unfold sample_at. f_equal.
  rewrite (py_getitem_negative (folders self)) by (rewrite Hf; exact Hidx).
  rewrite (py_getitem_negative (file_names self)) by exact Hidx.
  rewrite (py_getitem_negative (labels self)) by (rewrite Hl; exact Hidx).
  rewrite Hl, Hf. reflexivity.
Qed.

(** X3.  The ways in which [__getitem__] ends, on an accessor built by the
    constructor and an index from 0 up to the count: [TypeError] when the
    file name of that position is not a text; otherwise whatever
    [torchaudio.load] raises on the path made of the file path, the fold
    and the file name; otherwise the formatted recording with the label of
    that position.  The tensor assignments of the formatting never raise. *)
Theorem getitem_outcomes (csv_path fp : string) (fl : list Z)
    (self : UrbanSoundDataset) (count index : Z) :
  UrbanSoundDataset_new csv_path fp fl = Ok self ->
  fst (__len__ self) = Ok count ->
  0 <= index < count ->
  exists name fold label,
    py_getitem (file_names self) index = Ok name /\
    py_getitem (folders self) index = Ok fold /\
    py_getitem (labels self) index = Ok label /\
    fst (__getitem__ index self)
    = match name with
      | CInt _ => Raise TypeError
      | CStr text =>
          match torchaudio_load
                  ((fp ++ "fold" ++ str fold ++ "/") ++ text)%string with
          | Raise e => Raise e
          | Ok sound =>
              Ok (slice_step 5 (pad_or_truncate (DownmixMono (fst sound))),
                  label)
          end
      end.
Proof.
  intros Hnew Hlen Hidx.
  rewrite len_run in Hlen. cbn [fst] in Hlen. injection Hlen as <-.
  destruct (init_lengths _ _ _ _ Hnew) as [Hl Hf].
  destruct (new_unfold _ _ _ _ Hnew) as (_ & _ & _ & Hfp & Hmix & _).
  destruct (py_getitem_in_range (file_names self) index) as (name & Gn & _);
    [lia |].
  destruct (py_getitem_in_range (labels self) index) as (label & Gl & _);
    [lia |].
  destruct (py_getitem_in_range (folders self) index) as (fold & Gf & _);
    [lia |].
  exists name, fold, label. repeat split; try assumption.
  rewrite getitem_run. cbn [fst]. unfold sample_at.
  rewrite Gf, Gn, Gl, Hfp, Hmix. run_result.
  destruct name as [z | text]; [reflexivity |].
  unfold str_add.
  destruct (torchaudio_load _) as [sound | e]; [| reflexivity].
  rewrite format_sound_eq. reflexivity.
Qed.

End AccessorErrors.

(** * Further properties of the constructor *)

Lemma in_range (lo hi z : Z) : In z (range lo hi) <-> lo <= z < hi.
Proof.
  unfold range. rewrite in_map_iff. split.
  - intros (k & <- & Hk). apply in_seq in Hk. lia.
  - intros Hz. exists (Z.to_nat (z - lo)). split; [lia |].
    apply in_seq. lia.
Qed.

Lemma cell_in_spec (c : cell) (fl : list Z) :
  cell_in c fl = true <-> exists z, c = CInt z /\ In z fl.
Proof.
  destruct c as [z | s]; simpl.
  - rewrite existsb_exists. split.
    + intros (y & Hy & Heq). apply Z.eqb_eq in Heq. subst y.
      exists z. split; [reflexivity | exact Hy].
    + intros (y & Hz & Hy). injection Hz as <-.
      exists z. split; [exact Hy | apply Z.eqb_refl].
  - split; [discriminate | intros (z & Hz & _); discriminate].
Qed.

Lemma cell_in_same_elements (c : cell) (fl fl' : list Z) :
  (forall z, In z fl <-> In z fl') -> cell_in c fl = cell_in c fl'.
Proof.
  intros Hsame. apply eq_true_iff_eq. rewrite !cell_in_spec.
  split; intros (z & Hc & Hz); exists z; (split; [exact Hc | apply Hsame, Hz]).
Qed.

Lemma collect_same_elements (fl fl' : list Z) (rows : list (list cell)) :
  (forall z, In z fl <-> In z fl') ->
  forall acc, collect rows fl acc = collect rows fl' acc.
Proof.
  intros Hsame. induction rows as [| row rows IH]; intros [[ns ls] fs];
    [reflexivity |].
  rewrite !collect_cons.
  destruct (nth_error row 5) as [fold |]; [| reflexivity].
  rewrite (cell_in_same_elements fold fl fl' Hsame).
  destruct (cell_in fold fl'); [| apply IH].
  destruct (nth_error row 0); [| reflexivity].
  destruct (nth_error row 6); [apply IH | reflexivity].
Qed.

Lemma collect_readable (fl : list Z) (rows : list (list cell)) :
  Forall (row_readable fl) rows ->
  forall acc, exists acc', collect rows fl acc = Ok acc'.
Proof.
  induction 1 as [| row rows [H6 H7] _ IH]; intros [[ns ls] fs].
  - eexists. reflexivity.
  - rewrite collect_cons. unfold row_matches in H7.
    destruct (nth_error row 5) as [fold |] eqn:E5;
      [| apply nth_error_None in E5; lia].
    destruct (cell_in fold fl); [| apply IH].
    specialize (H7 eq_refl).
    destruct (nth_error row 0) as [name |] eqn:E0;
      [| apply nth_error_None in E0; lia].
    destruct (nth_error row 6) as [label |] eqn:E6;
      [| apply nth_error_None in E6; lia].
    apply IH.
Qed.

Lemma collect_unreadable (fl : list Z) (rows : list (list cell)) :
  Exists (fun row => ~ row_readable fl row) rows ->
  forall acc, collect rows fl acc = Raise IndexError.
Proof.
  induction 1 as [row rows Hbad | row rows _ IH]; intros [[ns ls] fs];
    rewrite collect_cons.
  - unfold row_readable, row_matches in Hbad.
    destruct (nth_error row 5) as [fold |] eqn:E5; [| reflexivity].
    assert (H6 : (6 <= length row)%nat).
    { assert (nth_error row 5 <> None) as Hs by congruence.
      apply nth_error_Some in Hs. lia. }
    destruct (cell_in fold fl).
    + destruct (nth_error row 0) as [name |]; [| reflexivity].
      destruct (nth_error row 6) as [label |] eqn:E6; [| reflexivity].
      exfalso. apply Hbad. split; [exact H6 |]. intros _.
      assert (nth_error row 6 <> None) as Hs by congruence.
      apply nth_error_Some in Hs. lia.
    + exfalso. apply Hbad. split; [exact H6 | discriminate].
  - destruct (nth_error row 5) as [fold |]; [| reflexivity].
    destruct (cell_in fold fl); [| apply IH].
    destruct (nth_error row 0); [| reflexivity].
    destruct (nth_error row 6); [apply IH | reflexivity].
Qed.

Lemma filter_split {A : Type} (p q r : A -> bool) (l : list A) :
  (forall a, r a = p a || q a) ->
  (forall a, p a = true -> q a = false) ->
  Permutation (filter p l ++ filter q l) (filter r l).
Proof.
  intros Hr Hpq. induction l as [| a l IH]; [constructor |].
  simpl. rewrite Hr.
  destruct (p a) eqn:Hp.
  - rewrite (Hpq a Hp). simpl. constructor. exact IH.
  - destruct (q a); simpl; [| exact IH].
    apply Permutation_sym, Permutation_cons_app, Permutation_sym, IH.
Qed.

Section ConstructorFacts.
Context {ext : Externals}.

(** X4.  When the constructor succeeds and when it raises.  What
    [pd.read_csv] raises is raised unchanged.  On a table it builds an
    accessor when every row has the fold column and every matching row has
    the class label column; when some row has not, it raises [IndexError].
    Rows that do not match need only six columns. *)
Theorem new_succeeds_or_raises (csv_path fp : string) (fl : list Z) :
  (forall e,
      pd_read_csv csv_path = Raise e ->
      UrbanSoundDataset_new csv_path fp fl = Raise e) /\
  (forall csvData,
      pd_read_csv csv_path = Ok csvData ->
      Forall (row_readable fl) csvData ->
      exists self, UrbanSoundDataset_new csv_path fp fl = Ok self) /\
  (forall csvData,
      pd_read_csv csv_path = Ok csvData ->
      Exists (fun row => ~ row_readable fl row) csvData ->
      UrbanSoundDataset_new csv_path fp fl = Raise IndexError).
Proof.
  repeat split.
  - intros e He. rewrite new_via_collect, He. reflexivity.
  - intros csvData Hcsv Hok. rewrite new_via_collect, Hcsv.
    destruct (collect_readable fl csvData Hok ([], [], []))
      as [[[ns ls] fs] ->].
    eexists. reflexivity.
  - intros csvData Hcsv Hbad. rewrite new_via_collect, Hcsv.
    rewrite (collect_unreadable fl csvData Hbad). reflexivity.
Qed.

(** X5.  The fold list counts as a set: two fold lists with the same
    elements, in any order and with any repetitions, give accessors with
    the same file names, labels and folds (only the stored fold list
    differs), and raise alike. *)
Theorem new_same_folds (csv_path fp : string) (fl fl' : list Z) :
  (forall z, In z fl <-> In z fl') ->
  (forall self,
      UrbanSoundDataset_new csv_path fp fl = Ok self ->
      UrbanSoundDataset_new csv_path fp fl' = Ok (set_folderList fl' self)) /\
  (forall e,
      UrbanSoundDataset_new csv_path fp fl = Raise e ->
      UrbanSoundDataset_new csv_path fp fl' = Raise e).
Proof.
  intros Hsame. rewrite !new_via_collect.
  destruct (pd_read_csv csv_path) as [csvData | e0].
  - rewrite (collect_same_elements fl fl' csvData Hsame).
    destruct (collect csvData fl' ([], [], [])) as [[[ns ls] fs] | e0].
    + split; [| discriminate]. intros self H. injection H as <-. reflexivity.
    + split; [discriminate |]. intros e H. exact H.
  - split; [discriminate |]. intros e H. exact H.
Qed.

(** X6.  The training and the test accessor of the notebook, folds 1 to 9
    and fold 10, share no row of the metadata table, and together they hold
    the rows of folds 1 to 10, each once: their counts add up to the number
    of those rows. *)
Theorem train_test_split (csv_path fp : string) (csvData : DataFrame)
    (train test_ : UrbanSoundDataset) :
  pd_read_csv csv_path = Ok csvData ->
  train_set csv_path fp = Ok train ->
  test_set csv_path fp = Ok test_ ->
  let train_rows := matching_rows csvData (range 1 10) in
  let test_rows := matching_rows csvData [10] in
  __len__ train = (Ok (Z.of_nat (length train_rows)), train) /\
  __len__ test_ = (Ok (Z.of_nat (length test_rows)), test_) /\
  (forall row, In row train_rows -> ~ In row test_rows) /\
  Permutation (train_rows ++ test_rows) (matching_rows csvData (range 1 11)) /\
  Z.of_nat (length (file_names train)) + Z.of_nat (length (file_names test_))
  = Z.of_nat (length (matching_rows csvData (range 1 11))).
Proof.
  intros Hcsv Htrain Htest train_rows test_rows.
  unfold train_set in Htrain. unfold test_set in Htest.
  destruct (init_columns _ _ _ _ _ Hcsv Htrain) as (Etr & _).
  destruct (init_columns _ _ _ _ _ Hcsv Htest) as (Ete & _).
  apply same_length_of_maps in Etr, Ete.
  assert (Hdisj : forall row,
             row_matches (range 1 10) row = true ->
             row_matches [10] row = false).
  { intros row. unfold row_matches.
    destruct (nth_error row 5) as [fold |]; [| discriminate].
    intros Hin. apply cell_in_spec in Hin. destruct Hin as (z & -> & Hz).
    apply in_range in Hz. simpl.
    destruct (Z.eqb_spec z 10); [lia | reflexivity]. }
  assert (Hall : forall row,
             row_matches (range 1 11) row
             = row_matches (range 1 10) row || row_matches [10] row).
  { intros row. unfold row_matches.
    destruct (nth_error row 5) as [fold |]; [| reflexivity].
    apply eq_true_iff_eq. rewrite orb_true_iff, !cell_in_spec.
    split.
    - intros (z & -> & Hz). apply in_range in Hz.
      destruct (Z.eq_dec z 10) as [-> | Hne].
      + right. exists 10. split; [reflexivity | left; reflexivity].
      + left. exists z. split; [reflexivity | apply in_range; lia].
    - intros [(z & -> & Hz) | (z & -> & Hz)]; exists z;
        (split; [reflexivity | apply in_range]).
      + apply in_range in Hz. lia.
      + destruct Hz as [<- | []]. lia. }
  assert (Hperm : Permutation (train_rows ++ test_rows)
                    (matching_rows csvData (range 1 11)))
    by (apply filter_split; assumption).
  split; [rewrite len_run, Etr; reflexivity |].
  split; [rewrite len_run, Ete; reflexivity |].
  split.
  - intros row Htr Hte. apply filter_In in Htr, Hte.
    destruct Htr as [_ Htr]. destruct Hte as [_ Hte].
    rewrite (Hdisj row Htr) in Hte. discriminate.
  - split; [exact Hperm |].
    apply Permutation_length in Hperm. rewrite length_app in Hperm.
    fold train_rows in Etr. fold test_rows in Ete. lia.
Qed.

End ConstructorFacts.

Lemma new_succeeds_or_raises_witness :
  (exists self, UrbanSoundDataset_new "six.csv" "audio/" [2] = Ok self) /\
  UrbanSoundDataset_new "six.csv" "audio/" [1] = Raise IndexError /\
  UrbanSoundDataset_new "missing.csv" "audio/" [1] = Raise OSError.
Proof.
  destruct (new_succeeds_or_raises "six.csv" "audio/" [2]) as (_ & Hok & _).
  destruct (new_succeeds_or_raises "six.csv" "audio/" [1]) as (_ & _ & Hbad).
  destruct (new_succeeds_or_raises "missing.csv" "audio/" [1]) as (Hcsv & _).
  split; [| split].
  - apply (Hok six_table); [reflexivity |].
    constructor; [| constructor].
    split; [simpl; lia | discriminate].
  - apply (Hbad six_table); [reflexivity |].
    left. intros [_ H7]. specialize (H7 eq_refl). simpl in H7. lia.
  - apply Hcsv. reflexivity.
Defined.

Lemma new_same_folds_witness :
  UrbanSoundDataset_new "meta.csv" "audio/" [2; 1; 1]
  = Ok (set_folderList [2; 1; 1] (set_folderList [1; 2] demo_both)).
Proof.
  destruct (new_same_folds "meta.csv" "audio/" [1; 2] [2; 1; 1]) as [Hok _].
  - intros z. simpl. intuition.
  - apply Hok. reflexivity.
Defined.

Lemma train_test_split_witness :
  exists train test_,
    train_set "meta.csv" "audio/" = Ok train /\
    test_set "meta.csv" "audio/" = Ok test_ /\
    __len__ train = (Ok 2, train) /\ __len__ test_ = (Ok 0, test_).
Proof.
  destruct (@train_set demo_ext "meta.csv" "audio/") as [train |] eqn:Htrain;
    [| discriminate Htrain].
  destruct (@test_set demo_ext "meta.csv" "audio/") as [test_ |] eqn:Htest;
    [| discriminate Htest].
  assert (Hcsv : pd_read_csv "meta.csv" = Ok demo_table) by reflexivity.
  destruct (train_test_split "meta.csv" "audio/" demo_table train test_
              Hcsv Htrain Htest) as (Ltr & Lte & _).
  exists train, test_. repeat split; assumption.
Defined.

Lemma getitem_out_of_range_witness :
  __getitem__ 1 demo_self = (Raise IndexError, demo_self).
Proof.
  apply (getitem_out_of_range "meta.csv" "audio/" [1] demo_self 1 1).
  - reflexivity.
  - reflexivity.
  - right. lia.
Defined.

Lemma getitem_negative_index_witness :
  __getitem__ (-1) demo_self = __getitem__ (1 + -1) demo_self.
Proof.
  apply (getitem_negative_index "meta.csv" "audio/" [1] demo_self 1 (-1)).
  - reflexivity.
  - reflexivity.
  - lia.
Defined.

Lemma getitem_outcomes_witness :
  exists soundFormatted,
    fst (__getitem__ 0 demo_self) = Ok (soundFormatted, CInt 3).
Proof.
  destruct (getitem_outcomes "meta.csv" "audio/" [1] demo_self 1 0)
    as (name & fold & label & Gn & Gf & Gl & Hget).
  - reflexivity.
  - reflexivity.
  - lia.
  - injection Gn as <-. injection Gf as <-. injection Gl as <-.
    eexists. rewrite Hget. reflexivity.
Defined.

(** * Further properties of the formatting *)

Section FormatMore.
Context {ext : Externals}.

Lemma pad_or_truncate_nth (soundData : list sample) (j : nat) :
  (j < n160000)%nat ->
  nth_error (pad_or_truncate soundData) j = Some (nth j soundData zero).
Proof.
  intros Hj. unfold pad_or_truncate.
  destruct (Nat.lt_ge_cases j (length soundData)) as [Hin | Hout].
  - rewrite nth_error_app1 by (rewrite length_firstn; lia).
    rewrite nth_error_firstn.
    destruct (Nat.ltb_spec j n160000); [| lia].
    apply nth_error_nth'. exact Hin.
  - rewrite nth_error_app2 by (rewrite length_firstn; lia).
    rewrite length_firstn, nth_overflow by exact Hout.
    apply nth_error_repeat_lt. lia.
Qed.

Lemma decimated_ext (soundData soundData' : list sample) :
  (forall i, (5 * i < n160000)%nat ->
             nth (5 * i) soundData zero = nth (5 * i) soundData' zero) ->
  slice_step 5 (pad_or_truncate soundData)
  = slice_step 5 (pad_or_truncate soundData').
Proof.
  intros Hsame. apply nth_error_ext. intros i.
  rewrite !slice_step_nth_error by lia.
  destruct (Nat.lt_ge_cases (5 * i) n160000) as [Hin | Hout].
  - rewrite !pad_or_truncate_nth by exact Hin. rewrite Hsame by exact Hin.
    reflexivity.
  - transitivity (@None sample); [| symmetry];
      apply nth_error_None; rewrite pad_or_truncate_length; exact Hout.
Qed.

(** X7.  The formatted waveform depends on the recording only through its
    samples at positions 0, 5, 10, ... below 160000 (a missing sample
    counting as zero): recordings that agree there are formatted alike,
    whatever their other samples and their lengths. *)
Theorem format_sound_reads_every_fifth (soundData soundData' : list sample) :
  (forall i, (5 * i < n160000)%nat ->
             nth (5 * i) soundData zero = nth (5 * i) soundData' zero) ->
  format_sound soundData = format_sound soundData'.
Proof.
  intros Hsame. rewrite !format_sound_eq. f_equal.
  apply decimated_ext. exact Hsame.
Qed.

(** X8.  Zeros appended to a recording do not change its formatted
    waveform, and neither does anything appended to a recording of 160000
    samples or more. *)
Theorem format_sound_ignores_tail (soundData tail : list sample) :
  Forall (fun x => x = zero) tail \/ (n160000 <= length soundData)%nat ->
  format_sound (soundData ++ tail) = format_sound soundData.
Proof.
  intros Htail. rewrite !format_sound_eq. f_equal.
  apply decimated_ext. intros i Hi.
  destruct (Nat.lt_ge_cases (5 * i) (length soundData)) as [Hin | Hout].
  - apply app_nth1. exact Hin.
  - destruct Htail as [Hzero | Hlong]; [| lia].
    rewrite app_nth2, (nth_overflow soundData) by exact Hout.
    destruct (nth_in_or_default (5 * i - length soundData) tail zero)
      as [Hin | Hdef]; [| exact Hdef].
    rewrite Forall_forall in Hzero. apply Hzero. exact Hin.
Qed.

(** X9.  The formatting makes no new value: every value of the formatted
    waveform is a sample of the recording or zero. *)
Theorem format_sound_values (soundData : list sample) :
  exists soundFormatted,
    format_sound soundData = Ok soundFormatted /\
    Forall (fun x => x = zero \/ In x soundData) soundFormatted.
Proof.
  exists (slice_step 5 (pad_or_truncate soundData)).
  split; [apply format_sound_eq |].
  apply Forall_forall. intros x Hx.
  apply In_nth_error in Hx. destruct Hx as [i Hi].
  rewrite slice_step_nth_error in Hi by lia.
  assert (Hlt : (5 * i < n160000)%nat).
  { rewrite <- (pad_or_truncate_length soundData).
    apply nth_error_Some. congruence. }
  rewrite pad_or_truncate_nth in Hi by exact Hlt. injection Hi as <-.
  destruct (nth_in_or_default (5 * i) soundData zero) as [Hin | Hdef].
  - right. exact Hin.
  - left. exact Hdef.
Qed.

End FormatMore.

Lemma format_sound_reads_every_fifth_witness :
  format_sound [1; 2; 3; 4; 5; 6]%Q = format_sound [1; 9; 9; 9; 9; 6; 9]%Q.
Proof.
  apply (format_sound_reads_every_fifth (ext := demo_ext)).
  intros i Hi.
  destruct i as [| [| i]]; [reflexivity | reflexivity |].
  rewrite !nth_overflow by (simpl; lia). reflexivity.
Defined.

Lemma format_sound_ignores_tail_witness :
  format_sound ([1; 2]%Q ++ [0; 0; 0]%Q) = format_sound [1; 2]%Q.
Proof.
  apply (format_sound_ignores_tail (ext := demo_ext)).
  left. repeat constructor.
Defined.

(** * Further properties of the evaluation *)

Section EvaluationMore.
Context {ext : Externals}.

(** X10.  For a model that returns one row for each waveform of the batch
    it is given, as the network does, [test] never reports more correct
    predictions than the test set has samples, and the percentage it
    reports lies between 0 and 100, whenever the test set is not empty and
    the loader has drawn as many samples as the test set holds. *)
Theorem test_report_bounds (loader : DataLoader)
    (drawn : list (list sample * Z))
    (model : list (list sample) -> list (list Q)) (epoch : Z) :
  dataset loader <> [] ->
  length drawn = length (dataset loader) ->
  (forall data, length (model data) = length data) ->
  exists correct total percent,
    test loader drawn model epoch = Ok (correct, total, percent) /\
    total = Z.of_nat (length (dataset loader)) /\
    0 <= correct <= total /\
    (0 <= percent <= 100)%Q.
Proof.
  intros Hne Hlen Hrows.
  set (total := Z.of_nat (length (dataset loader))).
  assert (Htotal : 0 < total).
  { subst total. destruct (dataset loader); [congruence | simpl length; lia]. }
  destruct (test_loop_bounds model (iter_batches loader drawn)) with
    (correct := 0) as (correct & Hloop & Hbound).
  { intros data target Hin. rewrite Hrows.
    apply (batches_aligned loader drawn). exact Hin. }
  rewrite targets_of_batches, length_map, Hlen in Hbound. fold total in Hbound.
  rewrite Z.add_0_l in Hloop.
  exists correct, total, (100 * inject_Z correct / inject_Z total)%Q.
  split; [| split; [reflexivity | split; [exact Hbound |]]].
  - rewrite test_run, Hloop. cbv zeta. fold total.
    rewrite truediv_nonzero by lia. reflexivity.
  - assert (Qtotal : (0 < inject_Z total)%Q).
    { change (inject_Z 0 < inject_Z total)%Q. rewrite <- Zlt_Qlt.
      exact Htotal. }
    split.
    + apply Qle_shift_div_l; [exact Qtotal |].
      rewrite Qmult_0_l. apply Qmult_le_0_compat; [discriminate |].
      change (inject_Z 0 <= inject_Z correct)%Q. rewrite <- Zle_Qle. lia.
    + apply Qle_shift_div_r; [exact Qtotal |].
      apply Qmult_le_l; [reflexivity |].
      rewrite <- Zle_Qle. lia.
Qed.

(** X11.  For a model that scores each waveform on its own, as the network
    does in evaluation mode, the report of [test] depends neither on the
    order in which the loader draws the samples nor on its batch size. *)
Theorem test_shuffle_invariant (loader loader' : DataLoader)
    (drawn drawn' : list (list sample * Z))
    (score : list sample -> list Q) (epoch : Z) :
  dataset loader = dataset loader' ->
  Permutation drawn drawn' ->
  test loader drawn (map score) epoch = test loader' drawn' (map score) epoch.
Proof.
  intros Hdata Hperm. rewrite !test_per_sample. cbv zeta. rewrite Hdata.
  rewrite (match_count_permutation score drawn drawn' Hperm). reflexivity.
Qed.

End EvaluationMore.

Lemma test_report_bounds_witness :
  exists correct total percent,
    test demo_loader (dataset demo_loader)
      (fun data => repeat (demo_row (Z.of_nat (length data))) (length data)) 1
    = Ok (correct, total, percent) /\
    0 <= correct <= total /\ (0 <= percent <= 100)%Q.
Proof.
  destruct (test_report_bounds demo_loader (dataset demo_loader)
              (fun data =>
                 repeat (demo_row (Z.of_nat (length data))) (length data)) 1)
    as (c & t & p & Htest & _ & Hc & Hp).
  - discriminate.
  - reflexivity.
  - intros data. apply repeat_length.
  - exists c, t, p. repeat split; tauto.
Defined.

Lemma test_shuffle_invariant_witness :
  test demo_loader (dataset demo_loader) (map (fun w => demo_row 3)) 1
  = test {| dataset := dataset demo_loader; batch_size := 1 |}
      (rev (dataset demo_loader)) (map (fun w => demo_row 3)) 1.
Proof.
  apply (test_shuffle_invariant (ext := demo_ext)).
  - reflexivity.
  - apply Permutation_rev.
Defined.

(** * Further properties of the schedule *)

Lemma epoch_loop_log (constructed : Z) (batches : nat) (stop : Z) :
  log (snd (epoch_loop batches stop (initial_run constructed)))
  = schedule_log constructed batches stop.
Proof.
  unfold epoch_loop, range, schedule_log.
  rewrite (epoch_loop_from constructed batches (Z.to_nat (stop - 1)) 0).
  - reflexivity.
  - unfold initial_run, stepped. cbn [scheduler]. f_equal. lia.
  - right. reflexivity.
Qed.



Lemma tenth_power_le_1 (k : Z) : 0 <= k -> ((1 # 10) ^ k <= 1)%Q.
Proof.
  intros Hk.
  assert (Hinv : ((1 # 10) ^ k == / (10 ^ k))%Q)
    by (apply (Qinv_power 10 k)).
  rewrite Hinv.
  assert (Hpos : (0 < 10 ^ k)%Q) by (apply Qpower_0_lt; reflexivity).
  apply Qle_shift_inv_r; [exact Hpos |].
  rewrite Qmult_1_l. apply Qpower_1_le; [discriminate | exact Hk].
Qed.

Lemma lr_of_epoch_le (constructed epoch epoch' : Z) :
  epoch <= epoch' ->
  (lr_of_epoch constructed epoch' <= lr_of_epoch constructed epoch)%Q.
Proof.
  intros Hle. unfold lr_of_epoch.
  set (n := (constructed + epoch) / 20).
  set (m := (constructed + epoch') / 20).
  assert (Hnm : n <= m) by (subst n m; lia).
  assert (Hpos : (0 < (1 # 10) ^ n)%Q) by (apply Qpower_0_lt; reflexivity).
  apply Qmult_le_l; [reflexivity |].
  replace m with (n + (m - n)) by lia.
  rewrite Qpower_plus by discriminate.
  rewrite <- (Qmult_1_r ((1 # 10) ^ n)) at 2.
  apply Qmult_le_l; [exact Hpos |].
  apply tenth_power_le_1. lia.
Qed.

Lemma optimizer_step_in_log (constructed : Z) (batches : nat) (stop : Z)
    (epoch batch_idx : Z) (rate : Q) :
  In (OptimizerStep epoch batch_idx rate)
     (log (snd (epoch_loop batches stop (initial_run constructed)))) ->
  1 <= epoch < stop /\ rate = lr_of_epoch constructed epoch.
Proof.
  rewrite epoch_loop_log. unfold schedule_log. rewrite in_flat_map.
  intros (e & He & Hin). apply in_range in He.
  unfold epoch_events in Hin. rewrite !in_app_iff, in_map_iff in Hin.
  destruct Hin as [Hmsg | [Hstep | [Hopt | Htest]]].
  - destruct (e =? 31); [| destruct Hmsg].
    destruct Hmsg as [Hmsg | []]. discriminate Hmsg.
  - destruct Hstep as [Hstep | []]. discriminate Hstep.
  - destruct Hopt as (b & Hb & _). injection Hb as -> _ <-.
    split; [exact He | reflexivity].
  - destruct Htest as [Htest | []]. discriminate Htest.
Qed.

(** X13.  The epoch loop only lowers the learning rate: of two optimizer
    steps that it takes, the one of the later epoch is at a rate that is
    not above the rate of the other, and steps of the same epoch are at the
    same rate. *)
Theorem lr_never_rises (constructed : Z) (batches : nat) (stop : Z)
    (epoch batch_idx epoch' batch_idx' : Z) (rate rate' : Q) :
  In (OptimizerStep epoch batch_idx rate)
     (log (snd (epoch_loop batches stop (initial_run constructed)))) ->
  In (OptimizerStep epoch' batch_idx' rate')
     (log (snd (epoch_loop batches stop (initial_run constructed)))) ->
  (epoch <= epoch' -> (rate' <= rate)%Q) /\
  (epoch = epoch' -> rate' = rate).
Proof.
  intros Hin Hin'.
  apply optimizer_step_in_log in Hin. destruct Hin as [_ ->].
  apply optimizer_step_in_log in Hin'. destruct Hin' as [_ ->].
  split.
  - apply lr_of_epoch_le.
  - intros ->. reflexivity.
Qed.


Lemma lr_never_rises_witness :
  ((1 # 1000) <= (1 # 100))%Q.
Proof.
  destruct (lr_never_rises 0 2 41 3 1 25 0 (1 # 100) (1 # 1000)) as [Hle _].
  - rewrite epoch_loop_log. vm_compute. tauto.
  - rewrite epoch_loop_log. vm_compute. tauto.
  - apply Hle. lia.
Defined.

(** * Further properties of the network *)

Section NetworkMore.
Context {A : Arith}.

(** X14.  In any arithmetic, binary32 included, the network accepts a batch
    of one-channel waveforms exactly from 31468 samples on: on fewer
    samples, or on another number of channels, [forward] raises; from 31468
    samples on it returns, for each waveform of the batch, rows of 10
    values.  The 32000 samples that the accessor returns are within the
    accepted lengths. *)
Theorem forward_accepted_lengths (p : Parameters) (mode : bool) (x : Tensor) :
  (size1 x <> 1%nat \/ (size2 x < n31468)%nat ->
   exists e, forward (Net_init p mode) x = Raise e) /\
  (size1 x = 1%nat -> (n31468 <= size2 x)%nat ->
   exists out,
     forward (Net_init p mode) x = Ok out /\
     size0 out = size0 x /\ (1 <= size1 out)%nat /\ size2 out = 10%nat) /\
  (n31468 <= n32000)%nat.
Proof.
  split; [apply forward_raises |]. split; [| sizes'].
  intros HC HL.
  destruct (forward_runs p mode x HC HL) as (y & Hrun & H0 & H1 & H2).
  exists (log_softmax_dim2 y).
  split; [exact Hrun |]. unfold log_softmax_dim2. cbn [size0 size1 size2].
  split; [exact H0 |]. split; [exact H1 | exact H2].
Qed.









End NetworkMore.



Section BatchIndependence.
Context {A : Arith}.



End BatchIndependence.

Lemma forward_accepted_lengths_witness :
  (exists e,
      forward (Net_init (unit_parameters no_libm no_libm) true)
        (@Build_Tensor (float32 no_libm no_libm) 1 1 80
           (fun _ _ _ => S754_zero false))
      = Raise e) /\
  (exists out,
      forward (Net_init (unit_parameters no_libm no_libm) true)
        (loud_batch no_libm no_libm) = Ok out).
Proof.
  split.
  - destruct (forward_accepted_lengths (unit_parameters no_libm no_libm) true
                (@Build_Tensor (float32 no_libm no_libm) 1 1 80
                   (fun _ _ _ => S754_zero false))) as (Hbad & _).
    apply Hbad. right. cbn [size2]. unfold n31468. lia.
  - destruct (forward_accepted_lengths (unit_parameters no_libm no_libm) true
                (loud_batch no_libm no_libm)) as (_ & Hok & _).
    destruct Hok as (out & Hout & _).
    + reflexivity.
    + cbn [size2 loud_batch batch_tensor]. unfold n31468, n32000. lia.
    + exists out. exact Hout.
Defined.

